(** * A shallow embedding of the 100cims pipeline

    This development models the two stages of the repository:
    - [src/src/data_processing.py] ([categorize_and_sort]) and
      [src/src/data_maps.py] ([smooth_boundary], [plot_concave_hull],
      [save_combined_to_dxf]): the per-band drawings;
    - [src/mergeDXF.py] ([merge_dxf_files_by_gap], [combine_dxf_files],
      [process_layer]): the composite drawings.

    Floating-point numbers of the source are modelled by exact rationals [Q].
    Python exceptions are modelled by an error/state monad over a small
    world made of the file store, the created directories and the log of
    saved drawings. *)

From Stdlib Require Import ZArith QArith Qround List String Ascii Bool Lia.
From Stdlib Require Import DecimalString DecimalZ Lqa Permutation Sorted.
Import ListNotations.

Local Open Scope Z_scope.

(** ** Paths, exceptions and the world *)

(** A [pathlib.Path]: its directory, its stem and its suffix. *)
Record path := mkPath { p_dir : string; p_stem : string; p_suffix : string }.

Definition path_eqb (a b : path) : bool :=
  String.eqb (p_dir a) (p_dir b) && String.eqb (p_stem a) (p_stem b)
  && String.eqb (p_suffix a) (p_suffix b).

(** The exceptions the modelled code can raise. *)
Inductive exn :=
| ValueError          (* [range] with step 0, [list.index] of a missing item,
                         [splprep] on a bad input *)
| IndexError          (* list indexing out of range *)
| DXFTableEntryError  (* [layers.add] of an existing layer name *)
| IOError (p : path)  (* [ezdxf.readfile] of a missing or unreadable file *)
| FileNotFoundError (dir : string). (* [Path.mkdir] under a missing parent *)

(** ** Drawing documents (the part of ezdxf the code uses) *)

Definition point := (Q * Q)%type.

Inductive shape :=
| LWPolyline (pts : list point)
| Circle (center : point) (radius : Q)
| OtherShape (dxftype : string).

Record entity := mkEntity { e_layer : string; e_shape : shape }.

Definition dxftype (e : entity) : string :=
  match e_shape e with
  | LWPolyline _ => "LWPOLYLINE"
  | Circle _ _ => "CIRCLE"
  | OtherShape t => t
  end.

Record layer := mkLayer { l_name : string; l_color : Z }.

Record doc := mkDoc { d_layers : list layer; d_msp : list entity }.

(** [ezdxf.new()]: a fresh document carries the required layers ["0"] and
    ["Defpoints"] of ezdxf (default colour 7) and an empty modelspace. *)
Definition ezdxf_new : doc :=
  mkDoc [mkLayer "0" 7; mkLayer "Defpoints" 7] [].

(** [msp.query('TYPE[layer=="NAME"]')] *)
Definition query (d : doc) (ty lay : string) : list entity :=
  filter (fun e => String.eqb (dxftype e) ty && String.eqb (e_layer e) lay)
    (d_msp d).

Definition set_layer (lay : string) (e : entity) : entity :=
  mkEntity lay (e_shape e).

(** [process_layer(entities, layer, msp)]: every entity is relabelled and a
    copy is appended to the modelspace.  (The source also relabels the
    entities of the document they were read from; that document is only
    queried again for the ["Margin"] layer, which neither the old nor the new
    label matches, and is then dropped.) *)
Definition process_layer (es : list entity) (lay : string) (d : doc) : doc :=
  mkDoc (d_layers d) (d_msp d ++ map (set_layer lay) es).

(** The world: the file store ([None]: missing or unreadable), the
    directories created by the program, and the log of [saveas] calls. *)
Record world := mkWorld {
  w_files : path -> option doc;
  w_dirs : list string;
  w_saved : list (path * doc)
}.

(** ** The error/state monad *)

Inductive result (A : Type) := Ok (a : A) | Err (e : exn).
Arguments Ok {A} a.
Arguments Err {A} e.

Definition M (A : Type) := world -> result A * world.

Definition ret {A} (a : A) : M A := fun w => (Ok a, w).
Definition raise {A} (e : exn) : M A := fun w => (Err e, w).
Definition bind {A B} (m : M A) (k : A -> M B) : M B :=
  fun w => match m w with
           | (Ok a, w') => k a w'
           | (Err e, w') => (Err e, w')
           end.

Notation "x <- m ;; k" := (bind m (fun x => k))
  (at level 61, m at next level, right associativity).
Notation "m ;;; k" := (bind m (fun _ => k))
  (at level 61, right associativity).

(** A Python [for] loop whose body may raise. *)
Fixpoint mfor {A} (xs : list A) (body : A -> M unit) : M unit :=
  match xs with
  | [] => ret tt
  | x :: xs' => body x ;;; mfor xs' body
  end.

(** A [for] loop that updates a local variable. *)
Fixpoint mfold {A B} (xs : list A) (acc : B) (body : B -> A -> M B) : M B :=
  match xs with
  | [] => ret acc
  | x :: xs' => acc' <- body acc x ;; mfold xs' acc' body
  end.

(** [Path.mkdir(exist_ok=True)] when the parent directory exists (in the
    script's run the inputs are read from [data/output], so [data] exists);
    [mkdir_checked] below also has the case of a missing parent. *)
Definition mkdir (dir : string) : M unit :=
  fun w => (Ok tt, mkWorld (w_files w) (w_dirs w ++ [dir]) (w_saved w)).

(** [ezdxf.readfile(p)] *)
Definition readfile (p : path) : M doc :=
  fun w => match w_files w p with
           | Some d => (Ok d, w)
           | None => (Err (IOError p), w)
           end.

(** [doc.saveas(p)]: the file is (over)written and the call is logged. *)
Definition saveas (p : path) (d : doc) : M unit :=
  fun w => (Ok tt, mkWorld (fun q => if path_eqb q p then Some d else w_files w q)
                           (w_dirs w) (w_saved w ++ [(p, d)])).

(** [doc.layers.add(name=..., color=...)] *)
Definition add_layer (name : string) (color : Z) (d : doc) : M doc :=
  if existsb (fun l => String.eqb (l_name l) name) (d_layers d)
  then raise DXFTableEntryError
  else ret (mkDoc (d_layers d ++ [mkLayer name color]) (d_msp d)).

(** ** Python list operations *)

(** [xs[i]], negative indices counting from the end. *)
Definition py_get {A} (xs : list A) (i : Z) : option A :=
  let n := Z.of_nat (List.length xs) in
  if (0 <=? i) && (i <? n) then nth_error xs (Z.to_nat i)
  else if (- n <=? i) && (i <? 0) then nth_error xs (Z.to_nat (n + i))
  else None.

Definition py_index {A} (xs : list A) (i : Z) : M A :=
  match py_get xs i with Some a => ret a | None => raise IndexError end.

(** [xs.index(x)]: the first position of [x]. *)
Fixpoint find_index (x : path) (xs : list path) : option nat :=
  match xs with
  | [] => None
  | y :: ys => if path_eqb y x then Some O
               else option_map S (find_index x ys)
  end.

Definition list_index (xs : list path) (x : path) : M nat :=
  match find_index x xs with Some k => ret k | None => raise ValueError end.

(** [range(start, stop, step)].  Each iteration moves by at least 1, so
    [|stop - start|] is enough fuel. *)
Fixpoint range_up (fuel : nat) (i stop step : Z) : list Z :=
  match fuel with
  | O => []
  | S f => if i <? stop then i :: range_up f (i + step) stop step else []
  end.

Fixpoint range_down (fuel : nat) (i stop step : Z) : list Z :=
  match fuel with
  | O => []
  | S f => if stop <? i then i :: range_down f (i + step) stop step else []
  end.

Definition py_range (start stop step : Z) : M (list Z) :=
  if step =? 0 then raise ValueError
  else if 0 <? step then ret (range_up (Z.to_nat (stop - start)) start stop step)
  else ret (range_down (Z.to_nat (start - stop)) start stop step).

(** [s.split()[0]]: the first whitespace-separated token. *)
Definition is_space (c : ascii) : bool :=
  match c with
  | " "%char | "009"%char | "010"%char | "011"%char | "012"%char
  | "013"%char => true
  | _ => false
  end.

Fixpoint take_token (s : string) : string :=
  match s with
  | EmptyString => EmptyString
  | String c s' => if is_space c then EmptyString else String c (take_token s')
  end.

Fixpoint split_first (s : string) : option string :=
  match s with
  | EmptyString => None
  | String c s' => if is_space c then split_first s' else Some (take_token s)
  end.

Definition py_split0 (s : string) : M string :=
  match split_first s with Some t => ret t | None => raise IndexError end.

(** ** [src/mergeDXF.py] *)

(** The output file name of a group:
    [output_directory / f"{start_meter} to {end_meter}.dxf"] with
    [start_meter = selected_files[0].stem.split()[0]] and likewise for the
    last selected file. *)
Definition output_path (output_directory : string) (selected_files : list path)
  : M path :=
  first <- py_index selected_files 0 ;;
  start_meter <- py_split0 (p_stem first) ;;
  last <- py_index selected_files (-1) ;;
  end_meter <- py_split0 (p_stem last) ;;
  ret (mkPath output_directory (start_meter ++ " to " ++ end_meter) ".dxf").

(** The loop body of [combine_dxf_files] that retains the crosses of one
    file. *)
Definition copy_crosses (combined : doc) (dxf_file : path) : M doc :=
  d <- readfile dxf_file ;;
  ret (process_layer (query d "CIRCLE" "Crosses") "Crosses" combined).

(** [combine_dxf_files(selected_files, output_file, all_dxf_files)] *)
Definition combine_dxf_files (selected_files : list path) (output_file : path)
  (all_dxf_files : list path) : M unit :=
  c0 <- add_layer "Boundaries_start" 7 ezdxf_new ;;
  c1 <- add_layer "Boundaries_end" 5 c0 ;;
  c2 <- add_layer "Crosses" 1 c1 ;;
  c3 <- add_layer "Margin" 3 c2 ;;
  (* the start layer *)
  first <- py_index selected_files 0 ;;
  start_doc <- readfile first ;;
  let c4 := process_layer (query start_doc "LWPOLYLINE" "Boundaries")
              "Boundaries_start" c3 in
  let c5 := process_layer (query start_doc "LWPOLYLINE" "Margin") "Margin" c4 in
  (* the end layer *)
  last <- py_index selected_files (-1) ;;
  end_doc <- readfile last ;;
  let c6 := process_layer (query end_doc "LWPOLYLINE" "Boundaries")
              "Boundaries_end" c5 in
  (* crosses from all files starting from the start layer *)
  start_index <- list_index all_dxf_files first ;;
  c7 <- mfold (skipn start_index all_dxf_files) c6 copy_crosses ;;
  saveas output_file c7.

(** The [try]/[except] selection of the start and end files of the group
    starting at [i]. *)
Definition select_files (dxf_files : list path) (num_files_per_gap i : Z)
  : M (list path) :=
  match py_get dxf_files i, py_get dxf_files (i + num_files_per_gap) with
  | Some a, Some b => ret [a; b]
  | _, _ =>
      a <- py_index dxf_files i ;;
      b <- py_index dxf_files (Z.of_nat (List.length dxf_files) - 1) ;;
      ret [a; b]
  end.

(** [merge_dxf_files_by_gap(dxf_files, gap, output_directory)] *)
Definition merge_dxf_files_by_gap (dxf_files : list path) (gap : Z)
  (output_directory : string) : M unit :=
  let num_files_per_gap := gap / 50 in
  mkdir output_directory ;;;
  starts <- py_range 0 (Z.of_nat (List.length dxf_files)) num_files_per_gap ;;
  mfor starts (fun i =>
    selected_files <- select_files dxf_files num_files_per_gap i ;;
    output_file <- output_path output_directory selected_files ;;
    combine_dxf_files selected_files output_file dxf_files).

(** [Path.mkdir(exist_ok=True)] with its missing-parent case: without
    [parents=True] it raises
    [FileNotFoundError] when the parent directory of [dir] does not exist.
    [parent_exists dir] tells whether it does in the file system the
    program runs in. *)
Definition mkdir_checked (parent_exists : string -> bool) (dir : string) : M unit :=
  if parent_exists dir then mkdir dir else raise (FileNotFoundError dir).

(** [merge_dxf_files_by_gap] with the directory creation of [mkdir_checked]. *)
Definition merge_dxf_files_by_gap_checked (parent_exists : string -> bool)
  (dxf_files : list path) (gap : Z) (output_directory : string) : M unit :=
  let num_files_per_gap := gap / 50 in
  mkdir_checked parent_exists output_directory ;;;
  starts <- py_range 0 (Z.of_nat (List.length dxf_files)) num_files_per_gap ;;
  mfor starts (fun i =>
    selected_files <- select_files dxf_files num_files_per_gap i ;;
    output_file <- output_path output_directory selected_files ;;
    combine_dxf_files selected_files output_file dxf_files).

(** *** Views used to state properties of the merge stage *)

Definition dummy_path : path := mkPath "" "" "".

(** The end index of the group starting at [i]: [i + window] if it exists,
    otherwise the last index. *)
Definition group_end (L window i : Z) : Z :=
  if i + window <? L then i + window else L - 1.

(** The group start indices [0, window, 2*window, ...] below [L],
    [ceil(L / window)] of them. *)
Definition group_starts (L window : Z) : list Z :=
  map (fun k => Z.of_nat k * window)
    (seq 0 (Z.to_nat ((L + window - 1) / window))).

Definition nth_path (xs : list path) (i : Z) : path :=
  nth (Z.to_nat i) xs dummy_path.

(** The (start file, end file) pair of every group. *)
Definition groups (dxf_files : list path) (window : Z) : list (path * path) :=
  let L := Z.of_nat (List.length dxf_files) in
  map (fun i => (nth_path dxf_files i, nth_path dxf_files (group_end L window i)))
    (group_starts L window).

(** The ["Crosses"] layer of a document: its modelspace entities on that
    layer. *)
Definition layer_entities (lay : string) (d : doc) : list entity :=
  filter (fun e => String.eqb (e_layer e) lay) (d_msp d).

(** The circles of the ["Crosses"] layer of a stored file. *)
Definition stored_crosses (files : path -> option doc) (p : path) : list entity :=
  match files p with
  | Some d => query d "CIRCLE" "Crosses"
  | None => []
  end.

Definition layer_names (d : doc) : list string := map l_name (d_layers d).

(** Whether a list of paths has no duplicate. *)
Fixpoint nodupb (xs : list path) : bool :=
  match xs with
  | [] => true
  | x :: xs' => negb (existsb (path_eqb x) xs') && nodupb xs'
  end.

(** The first token of a file's stem, and the output path of the group
    with start file [a] and end file [b]. *)
Definition stem_token (p : path) : string :=
  match split_first (p_stem p) with Some t => t | None => EmptyString end.

Definition group_output_path (output_directory : string) (a b : path) : path :=
  mkPath output_directory (stem_token a ++ " to " ++ stem_token b) ".dxf".

(** The layer table [combine_dxf_files] builds. *)
Definition composite_layer_table : list layer :=
  d_layers ezdxf_new ++
  [mkLayer "Boundaries_start" 7; mkLayer "Boundaries_end" 5;
   mkLayer "Crosses" 1; mkLayer "Margin" 3].

(** ** [src/src/data_maps.py] *)

(** [a > b] on floats. *)
Definition Qgtb (a b : Q) : bool := negb (Qle_bool a b).

(** [np.linspace(a, b, n)]: [a + k * (b - a) / (n - 1)] for [k < n]. *)
Definition linspace (a b : Q) (n : nat) : list Q :=
  map (fun k => (a + inject_Z (Z.of_nat k) * ((b - a) / inject_Z (Z.of_nat n - 1)))%Q)
    (seq 0 n).

(** A polygon of the hull: its exterior ring and its area. *)
Record polygon := mkPolygon { exterior : list point; area : Q }.

(** The result of [alphashape.alphashape]: a [Polygon], a [MultiPolygon], or
    any other geometry (which [plot_concave_hull] ignores). *)
Inductive hull :=
| HPolygon (p : polygon)
| HMultiPolygon (ps : list polygon)
| HOther.

(** A point of the data frame, with the band label [category] assigned by
    [categorize_and_sort] and the optional [nom] (name) column; [None] is a
    null entry (pandas reads an empty CSV field as null). *)
Record row := mkRow {
  longitude : Q; latitude : Q; altitude : Q; category : string; nom : option string
}.

(** A data frame: whether it has a ['nom'] column, and its rows. *)
Record frame := mkFrame { has_nom_column : bool; rows : list row }.

(** [xs[start:stop]] *)
Definition py_slice {A} (xs : list A) (start stop : Z) : list A :=
  let n := Z.of_nat (List.length xs) in
  let norm i := if i <? 0 then Z.max 0 (n + i) else Z.min i n in
  let s := norm start in
  let e := norm stop in
  firstn (Z.to_nat (e - s)) (skipn (Z.to_nat s) xs).

Definition add_entity (d : doc) (e : entity) : doc :=
  mkDoc (d_layers d) (d_msp d ++ [e]).

Definition margin_square : list point :=
  [(0, 0); (333, 0); (333, 333); (0, 333); (0, 0)]%Q.

(** [save_combined_to_dxf(all_smoothed_boundaries, crosses, filename)] *)
Definition save_combined_to_dxf (all_smoothed_boundaries : list (list Q * list Q))
  (crosses : list point) (filename : path) : M unit :=
  d0 <- add_layer "Boundaries" 7 ezdxf_new ;;
  d1 <- add_layer "Crosses" 1 d0 ;;
  d2 <- add_layer "Margin" 3 d1 ;;
  let d3 := fold_left (fun d '(smoothed_x, smoothed_y) =>
              add_entity d (mkEntity "Boundaries" (LWPolyline (combine smoothed_x smoothed_y))))
              all_smoothed_boundaries d2 in
  let d4 := fold_left (fun d '(x, y) =>
              add_entity d (mkEntity "Crosses" (Circle (x, y) (1 # 2))))
              crosses d3 in
  let d5 := add_entity d4 (mkEntity "Margin" (LWPolyline margin_square)) in
  saveas filename d5.

Definition output_folder : string := "data/output".

(** The [for idx, category in enumerate(sorted_categories[start:end],
    start=start)] loop of [plot_concave_hull], with its [area_threshold]
    variable (starting at 4.0, decreased by 0.02 after each band; rationals
    are kept in lowest terms). *)
Fixpoint band_loop (body : Z -> string -> Q -> M unit) (idx : Z) (cats : list string)
  (area_threshold : Q) : M unit :=
  match cats with
  | [] => ret tt
  | category :: rest =>
      body idx category area_threshold ;;;
      band_loop body (idx + 1) rest (Qred (area_threshold - (2 # 100)))
  end.

Section Maps.

(** The scipy spline fit: [splprep([x, y], s=...)] returns its
    representation [tck] ([None]: it raises, e.g. on too few points), and
    [spline_at tck u] is the point [splev(u, tck)] of the fitted curve. *)
Variable tck_t : Type.
Variable splprep : list Q -> list Q -> Q -> option tck_t.
Variable spline_at : tck_t -> Q -> point.

(** The concave hull [alphashape.alphashape(points, alpha)]. *)
Variable alphashape : list point -> Q -> hull.

(** [splev(u_fine, tck)] *)
Definition splev (u : list Q) (tck : tck_t) : list Q * list Q :=
  (map (fun t => fst (spline_at tck t)) u, map (fun t => snd (spline_at tck t)) u).

(** [np.append(a, a[0])] *)
Definition append_first (a : list Q) : M (list Q) :=
  v <- py_index a 0 ;; ret (a ++ [v]).

(** [smooth_boundary(x, y, smoothing_factor)] *)
Definition smooth_boundary (x y : list Q) (smoothing_factor : Q) : M (list Q * list Q) :=
  match splprep x y smoothing_factor with
  | None => raise ValueError
  | Some tck =>
      let u_fine := linspace 0 1 500 in
      let '(smoothed_x, smoothed_y) := splev u_fine tck in
      smoothed_x' <- append_first smoothed_x ;;
      smoothed_y' <- append_first smoothed_y ;;
      ret (smoothed_x', smoothed_y')
  end.

(** [x, y = polygon.exterior.coords.xy] followed by [smooth_boundary]. *)
Definition smooth_polygon (p : polygon) (smoothing_factor : Q) : M (list Q * list Q) :=
  smooth_boundary (map fst (exterior p)) (map snd (exterior p)) smoothing_factor.

(** The [isinstance] branches of [plot_concave_hull]: the smoothed boundaries
    of one band. *)
Definition hull_boundaries (h : hull) (area_threshold smoothing_factor : Q)
  : M (list (list Q * list Q)) :=
  match h with
  | HMultiPolygon ps =>
      mfold ps [] (fun all_smoothed_boundaries polygon =>
        if Qgtb (area polygon) area_threshold then
          b <- smooth_polygon polygon smoothing_factor ;;
          ret (all_smoothed_boundaries ++ [b])
        else ret all_smoothed_boundaries)
  | HPolygon p =>
      b <- smooth_polygon p smoothing_factor ;;
      ret [b]
  | HOther => ret []
  end.

(** The loop body of [plot_concave_hull] for the band [category] at index
    [idx] (the figure and its display are not modelled). *)
Definition band_body (data : frame) (sorted_categories : list string)
  (alpha smoothing_factor : Q) (save_dxf : bool)
  (idx : Z) (cat : string) (area_threshold : Q) : M unit :=
  let subsequent_categories :=
    py_slice sorted_categories idx (Z.of_nat (List.length sorted_categories)) in
  let category_data :=
    filter (fun r => existsb (String.eqb (category r)) subsequent_categories) (rows data) in
  let points := map (fun r => (longitude r, latitude r)) category_data in
  let h := alphashape points alpha in
  all_smoothed_boundaries <- hull_boundaries h area_threshold smoothing_factor ;;
  let category_peak_data := filter (fun r => String.eqb (category r) cat) category_data in
  let all_red_crosses :=
    if has_nom_column data then
      map (fun r => (longitude r, latitude r))
        (filter (fun r => if nom r then true else false) category_peak_data)
    else [] in
  if save_dxf then
    category_name <- py_index sorted_categories idx ;;
    save_combined_to_dxf all_smoothed_boundaries all_red_crosses
      (mkPath output_folder category_name ".dxf50")
  else ret tt.

(** [plot_concave_hull(data, sorted_categories, alpha, start, end,
    smoothing_factor, save_dxf)] *)
Definition plot_concave_hull (data : frame) (sorted_categories : list string)
  (alpha : Q) (start end_ : Z) (smoothing_factor : Q) (save_dxf : bool) : M unit :=
  band_loop (band_body data sorted_categories alpha smoothing_factor save_dxf)
    start (py_slice sorted_categories start end_) (4 # 1).

End Maps.

(** [enumerate(xs)] *)
Definition enumerate {A} (xs : list A) : list (nat * A) :=
  combine (seq 0 (List.length xs)) xs.

(** A monadic [map]: each action in turn, results collected. *)
Fixpoint mmap {A B} (f : A -> M B) (xs : list A) : M (list B) :=
  match xs with
  | [] => ret []
  | x :: xs' => b <- f x ;; bs <- mmap f xs' ;; ret (b :: bs)
  end.

(** ** [src/src/data_processing.py]: band labels *)

(** [str(n)] for a Python [int]. *)
Definition str_of_Z (z : Z) : string := NilZero.string_of_int (Z.to_int z).

(** [data['category']]: [str(lb) + "m to " + str(lb + bin_size) + "m"] for
    the bin of lower bound [lb]. *)
Definition category_label (bin_size lb : Z) : string :=
  str_of_Z lb ++ "m to " ++ str_of_Z (lb + bin_size) ++ "m".

(** The label of the band with lower bound [lb] (default bin size 50). *)
Definition band_label (lb : Z) : string := category_label 50 lb.

(** [(data['altitude'] // bin_size).astype(int) * bin_size] *)
Definition bin_lower (bin_size : Z) (altitude : Q) : Z :=
  Qfloor (altitude / inject_Z bin_size) * bin_size.

(** The row with its ['category'] column set. *)
Definition categorize (bin_size : Z) (r : row) : row :=
  mkRow (longitude r) (latitude r) (altitude r)
    (category_label bin_size (bin_lower bin_size (altitude r))) (nom r).

(** The distinct keys of [groupby('category')], in order of first
    appearance (pandas lists them sorted; [sort_values] reorders them
    anyway). *)
Fixpoint group_keys (xs : list string) : list string :=
  match xs with
  | [] => []
  | x :: xs' => x :: filter (fun y => negb (String.eqb x y)) (group_keys xs')
  end.

(** [Series.mean()] *)
Definition mean (xs : list Q) : Q :=
  (fold_right Qplus 0 xs / inject_Z (Z.of_nat (List.length xs)))%Q.

(** [data.groupby('category')['altitude'].mean()] at the key [k]. *)
Definition group_mean (data : list row) (k : string) : Q :=
  mean (map altitude (filter (fun r => String.eqb (category r) k) data)).

(** A stable sort: insertion, ascending for [le]. *)
Fixpoint insert_by {A} (le : A -> A -> bool) (x : A) (xs : list A) : list A :=
  match xs with
  | [] => [x]
  | y :: ys => if le x y then x :: y :: ys else y :: insert_by le x ys
  end.

Definition sort_by {A} (le : A -> A -> bool) (xs : list A) : list A :=
  fold_right (insert_by le) [] xs.

(** [category_means.sort_values(by='altitude', ascending=True)['category']
    .tolist()] for the groups [ks]. *)
Definition sort_values_by_mean (data : list row) (ks : list string) : list string :=
  map fst (sort_by (fun a b => Qle_bool (snd a) (snd b))
             (map (fun k => (k, group_mean data k)) ks)).

(** [categorize_and_sort(data, bin_size)]: the categorized rows and the
    sorted categories. *)
Definition categorize_and_sort (data : list row) (bin_size : Z) : list row * list string :=
  let data' := map (categorize bin_size) data in
  (data', sort_values_by_mean data' (group_keys (map category data'))).

(** ** [src/mergeDXF.py]: the sort key of the per-band files *)

(** [s.rstrip(c)] *)
Fixpoint rstrip (c : ascii) (s : string) : string :=
  match s with
  | EmptyString => EmptyString
  | String a s' =>
      let r := rstrip c s' in
      if String.eqb r EmptyString && Ascii.eqb a c then EmptyString else String a r
  end.

(** [int(s)] on a decimal literal. *)
Definition py_int (s : string) : M Z :=
  match NilZero.int_of_string s with
  | Some d => ret (Z.of_int d)
  | None => raise ValueError
  end.

(** [int(stem.split()[0].rstrip('m'))], the key of
    [sorted(dxf_files, key=lambda p: ...)] applied to [p.stem]. *)
Definition stem_key (stem : string) : M Z :=
  tok <- py_split0 stem ;; py_int (rstrip "m" tok).

(** [sorted(xs, key=key)] *)
Definition sorted_by {A} (key : A -> M Z) (xs : list A) : M (list A) :=
  keys <- mmap key xs ;;
  ret (map fst (sort_by (fun a b => Z.leb (snd a) (snd b)) (combine xs keys))).

(** [lambda p: int(p.stem.split()[0].rstrip('m'))], the key by which the
    merge script sorts the per-band files. *)
Definition label_key (p : path) : M Z := stem_key (p_stem p).

(** [Path(dir).glob("*.dxf")] over a listing of paths: the files of [dir]
    whose name ends in [.dxf]. *)
Definition glob_dxf (dir : string) (listing : list path) : list path :=
  filter (fun p => String.eqb (p_dir p) dir && String.eqb (p_suffix p) ".dxf") listing.

(** ** [src/src/data_maps.py]: [create_circle] and [create_cross_lines] *)

Section Circle.

(** [math.pi], [math.cos] and [math.sin]. *)
Variable pi : Q.
Variables cos sin : Q -> Q.

(** [create_circle(x, y, radius, num_segments)] *)
Definition create_circle (x y radius : Q) (num_segments : Z) : M (list point) :=
  is <- py_range 0 num_segments 1 ;;
  let circle_points :=
    map (fun i =>
           let angle := (2 * pi * inject_Z i / inject_Z num_segments)%Q in
           ((x + radius * cos angle)%Q, (y + radius * sin angle)%Q)) is in
  first <- py_index circle_points 0 ;;
  ret (circle_points ++ [first]).

End Circle.

(** [create_cross_lines(x, y, size)] *)
Definition create_cross_lines (x y size : Q) : list point * list point :=
  ([((x - size)%Q, (y - size)%Q); ((x + size)%Q, (y + size)%Q)],
   [((x - size)%Q, (y + size)%Q); ((x + size)%Q, (y - size)%Q)]).

(** ** [src/src/data_processing.py]: coordinates, cleaning, rescaling *)

(** A shapely geometry of the shapefiles: a point (with its [z]), a line
    string with its coordinate tuples, or any other geometry. *)
Inductive geometry :=
  | GPoint (x y z : Q)
  | GLineString (coords : list (list Q))
  | GOther.

(** [extract_coordinates(geometry)] *)
Definition extract_coordinates (g : geometry) : option (list (list Q)) :=
  match g with
  | GPoint x y z => Some [[x; y; z]]
  | GLineString coords => Some coords
  | GOther => None
  end.

(** [extract_xyz(coords)] of [process_coordinates]; [None] stands for
    [(None, None, None)], and [x, y, z = coords[0]] fails unless the first
    tuple has three entries. *)
Definition extract_xyz (coords : option (list (list Q))) : M (option (Q * Q * Q)) :=
  match coords with
  | Some (c :: _) =>
      match c with
      | [x; y; z] => ret (Some (x, y, z))
      | _ => raise ValueError
      end
  | _ => ret None
  end.

(** A row of the coordinate frame: its index label and the columns
    ['longitude'], ['latitude'], ['altitude']. *)
Record grow := mkGRow { g_index : nat; g_lon : Q; g_lat : Q; g_alt : Q }.

(** The first part of [process_coordinates]: the three columns set from
    [zip] of the unpacked [geometry_coordinates.apply(extract_xyz)] (the unpacking of the
    [zip] fails on an empty frame), then [dropna()]; the index labels are
    the positions of the (concatenated, [ignore_index=True]) geometries. *)
Definition coordinate_rows (geoms : list geometry) : M (list grow) :=
  xyz <- mmap (fun g => extract_xyz (extract_coordinates g)) geoms ;;
  match xyz with
  | [] => raise ValueError
  | _ => ret (flat_map (fun '(i, o) =>
                match o with
                | Some (x, y, z) => [mkGRow i x y z]
                | None => []
                end) (enumerate xyz))
  end.

(** [Series.nunique()] *)
Fixpoint nunique (xs : list Q) : nat :=
  match xs with
  | [] => O
  | x :: xs' => if existsb (Qeq_bool x) xs' then nunique xs' else S (nunique xs')
  end.

Definition same_location (r s : grow) : bool :=
  Qeq_bool (g_lat r) (g_lat s) && Qeq_bool (g_lon r) (g_lon s).

(** [data.groupby(['latitude', 'longitude'])
    .filter(lambda x: x['altitude'].nunique() > 1)] *)
Definition conflicting_rows (data : list grow) : list grow :=
  filter (fun r => Nat.ltb 1 (nunique (map g_alt (filter (same_location r) data)))) data.

Definition same_values (r s : grow) : bool :=
  Qeq_bool (g_lon r) (g_lon s) && Qeq_bool (g_lat r) (g_lat s) &&
  Qeq_bool (g_alt r) (g_alt s).

(** [drop_duplicates()]: the first of rows with equal values (the index
    label is not compared). *)
Fixpoint drop_duplicates_from (seen xs : list grow) : list grow :=
  match xs with
  | [] => []
  | x :: xs' =>
      if existsb (same_values x) seen then drop_duplicates_from seen xs'
      else x :: drop_duplicates_from (seen ++ [x]) xs'
  end.

Definition drop_duplicates (xs : list grow) : list grow := drop_duplicates_from [] xs.

(** [data.update(other)]: at each index label of [other], its non-NaN
    values ([None] is NaN for the new altitude) overwrite those of [data]. *)
Definition update_rows (data : list grow) (other : list (grow * option Q)) : list grow :=
  map (fun r =>
         match find (fun '(s, _) => Nat.eqb (g_index s) (g_index r)) other with
         | Some (s, Some v) => mkGRow (g_index r) (g_lon s) (g_lat s) v
         | Some (s, None) => mkGRow (g_index r) (g_lon s) (g_lat s) (g_alt r)
         | None => r
         end) data.

(** The [invalid_data] and [valid_data] frames of
    [clean_and_interpolate_data], and the [(latitude, longitude)] pairs it
    passes to [griddata]. *)
Definition invalid_rows (data : list grow) : list grow :=
  drop_duplicates (filter (fun r => Qle_bool (g_alt r) 0) data ++ conflicting_rows data).

Definition valid_rows (data : list grow) : list grow :=
  filter (fun r => negb (existsb (fun s => Nat.eqb (g_index s) (g_index r))
                           (invalid_rows data))) data.

Definition lat_lon (r : grow) : Q * Q := (g_lat r, g_lon r).

Section Clean.

(** [griddata(points, values, query_points, method='linear')]: one value
    per query point, [None] for NaN (outside the hull of [points]). *)
Variable griddata : list (Q * Q) -> list Q -> list (Q * Q) -> M (list (option Q)).

(** [clean_and_interpolate_data(data)]; the assignment of the interpolated
    column fails when its length is not that of [invalid_data]. *)
Definition clean_and_interpolate_data (data : list grow) : M (list grow) :=
  let invalid_altitude := filter (fun r => Qle_bool (g_alt r) 0) data in
  let duplicates := conflicting_rows data in
  let invalid_data := drop_duplicates (invalid_altitude ++ duplicates) in
  let valid_data :=
    filter (fun r => negb (existsb (fun s => Nat.eqb (g_index s) (g_index r)) invalid_data))
      data in
  let points := map (fun r => (g_lat r, g_lon r)) valid_data in
  let values := map g_alt valid_data in
  let query_points := map (fun r => (g_lat r, g_lon r)) invalid_data in
  interpolated <- griddata points values query_points ;;
  if Nat.eqb (List.length interpolated) (List.length invalid_data) then
    let data' := update_rows data (combine invalid_data interpolated) in
    ret (map (fun r => mkGRow (g_index r) (g_lon r / 10000) (g_lat r / 100000) (g_alt r))
           data')
  else raise ValueError.

(** [process_coordinates(combined_gdf)] *)
Definition process_coordinates (geoms : list geometry) : M (list grow) :=
  data <- coordinate_rows geoms ;; clean_and_interpolate_data data.

End Clean.

(** ** [src/src/data_processing.py]: [load_shapefiles] *)

(** Python's [sub in s]: [sub] is a prefix of some suffix of [s]. *)
Fixpoint str_contains (sub s : string) : bool :=
  String.prefix sub s ||
  match s with
  | EmptyString => false
  | String _ s' => str_contains sub s'
  end.

(** Python's [s.endswith(suf)]: some suffix of [s] is [suf]. *)
Fixpoint str_endswith (suf s : string) : bool :=
  String.eqb s suf ||
  match s with
  | EmptyString => false
  | String _ s' => str_endswith suf s'
  end.

(** [os.path.join(a, b)] on POSIX: an absolute [b] replaces [a]; otherwise a
    separator is put between them unless [a] is empty or already ends in one. *)
Definition path_join (a b : string) : string :=
  if String.prefix "/" b then b
  else if String.eqb a "" || str_endswith "/" a then a ++ b
  else a ++ "/" ++ b.

(** [load_shapefiles(shapefile_folder)]; [listing] is
    [os.listdir(shapefile_folder)]. *)
Definition load_shapefiles (shapefile_folder : string) (listing : list string)
  : list string :=
  map (path_join shapefile_folder)
    (filter (fun f => str_contains "_PUN_ACO" f && str_endswith ".shp" f) listing).

Definition qmin (a b : Q) : Q := if Qle_bool a b then a else b.
Definition qmax (a b : Q) : Q := if Qle_bool a b then b else a.

(** [Series.min()] and [Series.max()] of a column (only used on non-empty
    columns below: an empty frame has nothing to rescale). *)
Definition col_min (xs : list Q) : Q :=
  match xs with [] => 0 | x :: xs' => fold_left qmin xs' x end.
Definition col_max (xs : list Q) : Q :=
  match xs with [] => 0 | x :: xs' => fold_left qmax xs' x end.

(** [rescale_data(data, xy_range)]: the ['latitude'] and ['longitude']
    columns are mapped affinely onto [[xy_range[0], xy_range[1]]].  The
    division is that of Q (a constant column, for which pandas gives NaN,
    is excluded by the theorems below). *)
Definition rescale_data (data : list row) (xy_range : list Q) : M (list row) :=
  let lat_min := col_min (map latitude data) in
  let lat_max := col_max (map latitude data) in
  let alt_min := col_min (map longitude data) in
  let alt_max := col_max (map longitude data) in
  x1 <- py_index xy_range 1 ;;
  x0 <- py_index xy_range 0 ;;
  ret (map (fun r =>
              mkRow ((longitude r - alt_min) / (alt_max - alt_min) * (x1 - x0) + x0)%Q
                    ((latitude r - lat_min) / (lat_max - lat_min) * (x1 - x0) + x0)%Q
                    (altitude r) (category r) (nom r)) data).

(** ** Concrete inputs used by the witnesses and counterexamples *)

(** The per-band file of the band with lower bound [lb], as read back by the
    merge stage. *)
Definition band_file (lb : Z) : path := mkPath "data/output" (band_label lb) ".dxf".

(** Seven per-band files, [0m to 50m] ... [300m to 350m]. *)
Definition seven_files : list path :=
  map (fun k => band_file (50 * Z.of_nat k)) (seq 0 7).

(** A per-band drawing with one boundary and one marker at [(x, 0)]. *)
Definition band_drawing (x : Z) : doc :=
  mkDoc [mkLayer "0" 7; mkLayer "Defpoints" 7; mkLayer "Boundaries" 7;
         mkLayer "Crosses" 1; mkLayer "Margin" 3]
    [mkEntity "Boundaries" (LWPolyline [(0, 0); (1, 0); (0, 0)]%Q);
     mkEntity "Crosses" (Circle (inject_Z x, 0%Q) (1 # 2));
     mkEntity "Margin" (LWPolyline [(0, 0); (333, 0); (333, 333); (0, 333); (0, 0)]%Q)].

(** A store in which every band file is readable, except the ones listed. *)
Definition store_without (missing : list path) : world :=
  mkWorld (fun p => if existsb (path_eqb p) missing then None
                    else Some (band_drawing (Z.of_nat (String.length (p_stem p)))))
    [] [].

(** A stand-in for the spline fit: it accepts every input and its curve is
    the diagonal [u |-> (u, u)]. *)
Definition toy_splprep (x y : list Q) (s : Q) : option unit := Some tt.
Definition toy_spline_at (tck : unit) (u : Q) : point := (u, u).

(** A stand-in for the concave hull: one component of area 3.99. *)
Definition toy_polygon : polygon :=
  mkPolygon [(0, 0); (2, 0); (2, 2); (0, 0)]%Q (399 # 100).
Definition toy_alphashape (pts : list point) (alpha : Q) : hull :=
  HMultiPolygon [toy_polygon].

(** Two bands of points, one named point in each. *)
Definition two_bands : frame :=
  mkFrame true
    [mkRow 1 1 10 "0m to 50m"%string None;
     mkRow 2 2 20 "0m to 50m"%string (Some "Turo"%string);
     mkRow 3 3 60 "50m to 100m"%string (Some "Puig"%string);
     mkRow 4 4 70 "50m to 100m"%string None].

Definition two_categories : list string := ["0m to 50m"; "50m to 100m"]%string.

(** Points at six altitudes, and their band labels in the (lexicographic)
    order in which pandas lists the groups. *)
Definition six_heights : list row :=
  map (fun a => mkRow 0 0 a "" None) [120; 30; 1000; -7; 149; 60]%Q.

Definition lex_categories : list string :=
  ["-50m to 0m"; "0m to 50m"; "1000m to 1050m"; "100m to 150m"; "50m to 100m"]%string.

(** Geometries of a shapefile: a point, a 3-D line string, another
    geometry and an empty line string; and one with a 2-D line string. *)
Definition sample_geoms : list geometry :=
  [GPoint 1 2 3; GLineString [[4; 5; 6]; [7; 8; 9]]; GOther; GLineString []]%Q.
Definition flat_geoms : list geometry := [GPoint 1 2 3; GLineString [[4; 5]]]%Q.

(** Coordinate rows: a valid point, a point below sea level, two altitudes
    at one location, and another valid point. *)
Definition sample_rows : list grow :=
  [mkGRow 0 1 2 10; mkGRow 1 3 4 (-2); mkGRow 2 5 6 7; mkGRow 3 5 6 9;
   mkGRow 4 8 9 12]%Q.

(** Stand-ins for [griddata]: NaN everywhere, and 5 everywhere. *)
Definition nan_griddata (pts : list (Q * Q)) (vals : list Q) (qs : list (Q * Q))
  : M (list (option Q)) := ret (map (fun _ => None) qs).
Definition five_griddata (pts : list (Q * Q)) (vals : list Q) (qs : list (Q * Q))
  : M (list (option Q)) := ret (map (fun _ => Some 5%Q) qs).

(** A store with no file. *)
Definition empty_world : world := mkWorld (fun _ => None) [] [].

(** * Proofs *)

(** ** Monad and Python helpers *)

Lemma bind_ok {A B} (m : M A) (k : A -> M B) st a st1 :
  m st = (Ok a, st1) -> bind m k st = k a st1.
Proof. intros H; unfold bind; rewrite H; reflexivity. Qed.

Lemma bind_err {A B} (m : M A) (k : A -> M B) st e st1 :
  m st = (Err e, st1) -> bind m k st = (Err e, st1).
Proof. intros H; unfold bind; rewrite H; reflexivity. Qed.

Lemma path_eqb_eq a b : path_eqb a b = true <-> a = b.
Proof.
  destruct a as [d1 s1 x1], b as [d2 s2 x2]; unfold path_eqb; simpl.
  rewrite !andb_true_iff, !String.eqb_eq.
  split; [intros [[-> ->] ->]; reflexivity | intros H; inversion H; auto].
Qed.

Lemma path_eqb_refl a : path_eqb a a = true.
Proof. apply path_eqb_eq; reflexivity. Qed.

Lemma range_up_count fuel i stop step :
  1 <= step -> (Z.to_nat (stop - i) <= fuel)%nat ->
  range_up fuel i stop step =
  map (fun k => i + Z.of_nat k * step)
    (seq 0 (Z.to_nat ((stop - i + step - 1) / step))).
Proof.
  revert i; induction fuel as [|fuel IH]; intros i Hs Hf; simpl.
  - assert (Hle : stop - i <= 0) by lia.
    assert (Hd : (stop - i + step - 1) / step < 1).
    { apply Z.div_lt_upper_bound; lia. }
    replace (Z.to_nat ((stop - i + step - 1) / step)) with O by lia.
    reflexivity.
  - destruct (Z.ltb_spec i stop) as [Hlt|Hge].
    + assert (Hc : (stop - i + step - 1) / step = 1 + (stop - i - 1) / step).
      { replace (stop - i + step - 1) with ((stop - i - 1) + 1 * step) by lia.
        rewrite Z.div_add by lia; lia. }
      assert (Hnn : 0 <= (stop - i - 1) / step) by (apply Z.div_pos; lia).
      rewrite Hc.
      replace (Z.to_nat (1 + (stop - i - 1) / step))
        with (S (Z.to_nat ((stop - (i + step) + step - 1) / step))).
      2:{ replace (stop - (i + step) + step - 1) with (stop - i - 1) by lia. lia. }
      simpl. rewrite IH by lia. f_equal; [lia|].
      rewrite <- seq_shift, map_map.
      apply map_ext; intros k; lia.
    + assert (Hd : (stop - i + step - 1) / step < 1).
      { apply Z.div_lt_upper_bound; lia. }
      replace (Z.to_nat ((stop - i + step - 1) / step)) with O by lia.
      reflexivity.
Qed.

Lemma py_range_pos L w st :
  0 <= L -> 1 <= w -> py_range 0 L w st = (Ok (group_starts L w), st).
Proof.
  intros HL Hw. unfold py_range.
  destruct (Z.eqb_spec w 0); [lia|].
  destruct (Z.ltb_spec 0 w); [|lia].
  rewrite range_up_count by lia.
  unfold group_starts, ret.
  replace (L - 0 + w - 1) with (L + w - 1) by lia.
  do 3 f_equal; apply map_ext; intros; lia.
Qed.

Lemma in_group_starts L w i :
  1 <= w -> In i (group_starts L w) -> 0 <= i < L.
Proof.
  unfold group_starts; intros Hw Hin.
  apply in_map_iff in Hin as [k [<- Hk]].
  apply in_seq in Hk. destruct Hk as [_ Hk]. simpl in Hk.
  assert (Hk' : Z.of_nat k < (L + w - 1) / w) by lia.
  assert (Hk2 : (Z.of_nat k + 1) * w <= L + w - 1).
  { assert (Z.of_nat k + 1 <= (L + w - 1) / w) by lia.
    apply Z.le_trans with (((L + w - 1) / w) * w); [nia|].
    rewrite Z.mul_comm. apply Z.mul_div_le. lia. }
  nia.
Qed.

Lemma py_get_nonneg {A} (xs : list A) i :
  0 <= i < Z.of_nat (List.length xs) -> py_get xs i = nth_error xs (Z.to_nat i).
Proof.
  intros H; unfold py_get.
  destruct (Z.leb_spec 0 i); [|lia].
  destruct (Z.ltb_spec i (Z.of_nat (List.length xs))); [reflexivity|lia].
Qed.

Lemma py_get_beyond {A} (xs : list A) i :
  Z.of_nat (List.length xs) <= i -> py_get xs i = None.
Proof.
  intros H; unfold py_get.
  destruct (Z.leb_spec 0 i), (Z.ltb_spec i (Z.of_nat (List.length xs)));
    simpl; try lia.
  destruct (Z.ltb_spec i 0); [lia|]. rewrite andb_false_r; reflexivity.
Qed.

Lemma nth_error_nth_path xs i :
  0 <= i < Z.of_nat (List.length xs) -> nth_error xs (Z.to_nat i) = Some (nth_path xs i).
Proof.
  intros H; unfold nth_path. apply nth_error_nth'. lia.
Qed.

Lemma py_get_valid xs i :
  0 <= i < Z.of_nat (List.length xs) -> py_get xs i = Some (nth_path xs i).
Proof.
  intros H; rewrite py_get_nonneg by exact H. apply nth_error_nth_path, H.
Qed.

Lemma select_files_group dxf_files w i st :
  1 <= w -> 0 <= i < Z.of_nat (List.length dxf_files) ->
  select_files dxf_files w i st =
  (Ok [nth_path dxf_files i;
       nth_path dxf_files (group_end (Z.of_nat (List.length dxf_files)) w i)], st).
Proof.
  intros Hw Hi. unfold select_files, group_end.
  rewrite (py_get_valid _ i Hi).
  destruct (Z.ltb_spec (i + w) (Z.of_nat (List.length dxf_files))) as [Hl|Hl].
  - rewrite py_get_valid by lia. reflexivity.
  - rewrite py_get_beyond by lia.
    unfold bind, py_index. rewrite (py_get_valid _ i Hi).
    rewrite py_get_valid by lia. reflexivity.
Qed.

Lemma mfor_map_ext {A B} (xs : list A) (h : A -> B) (f : A -> M unit)
  (g : B -> M unit) st :
  (forall x st', In x xs -> f x st' = g (h x) st') ->
  mfor xs f st = mfor (map h xs) g st.
Proof.
  revert st; induction xs as [|x xs IH]; intros st Hfg; simpl; [reflexivity|].
  unfold bind. rewrite (Hfg x st (or_introl eq_refl)).
  destruct (g (h x) st) as [[u|e] st1]; [|reflexivity].
  apply IH. intros y st' Hy; apply Hfg; right; exact Hy.
Qed.

(** The merge loop runs over exactly the groups of [groups]. *)
Lemma merge_as_groups dxf_files gap output_directory st :
  1 <= gap / 50 ->
  merge_dxf_files_by_gap dxf_files gap output_directory st =
  (mkdir output_directory ;;;
   mfor (groups dxf_files (gap / 50)) (fun '(a, b) =>
     output_file <- output_path output_directory [a; b] ;;
     combine_dxf_files [a; b] output_file dxf_files)) st.
Proof.
  intros Hw. unfold merge_dxf_files_by_gap.
  set (st1 := mkWorld (w_files st) (w_dirs st ++ [output_directory]) (w_saved st)).
  rewrite !(bind_ok (mkdir output_directory) _ st tt st1 eq_refl).
  assert (HL : 0 <= Z.of_nat (List.length dxf_files)) by lia.
  rewrite (bind_ok _ _ st1 _ st1 (py_range_pos _ (gap / 50) st1 HL Hw)).
  unfold groups. apply mfor_map_ext.
  intros i st' Hi. apply in_group_starts in Hi; [|lia].
  unfold bind at 1. rewrite select_files_group by lia. reflexivity.
Qed.

(** ** [combine_dxf_files] *)

Lemma mfold_copy_ok xs c st :
  (forall p, In p xs -> w_files st p <> None) ->
  mfold xs c copy_crosses st =
  (Ok (mkDoc (d_layers c)
         (d_msp c ++ flat_map (fun p => map (set_layer "Crosses")
                                         (stored_crosses (w_files st) p)) xs)),
   st).
Proof.
  revert c; induction xs as [|p xs IH]; intros c Hr; simpl.
  - destruct c; simpl; rewrite app_nil_r; reflexivity.
  - unfold bind at 1, copy_crosses, bind, readfile, stored_crosses.
    destruct (w_files st p) as [d|] eqn:Hp.
    2:{ exfalso; apply (Hr p); [left; reflexivity | exact Hp]. }
    unfold ret. fold (bind (A:=doc) (B:=doc)).
    rewrite IH by (intros q Hq; apply Hr; right; exact Hq).
    simpl. rewrite <- app_assoc. reflexivity.
Qed.

Lemma mfold_copy_err xs c st p :
  In p xs -> w_files st p = None ->
  exists e, mfold xs c copy_crosses st = (Err e, st).
Proof.
  revert c; induction xs as [|q xs IH]; intros c Hin Hp; [destruct Hin|].
  simpl. unfold bind at 1, copy_crosses, bind at 1, readfile.
  destruct Hin as [<-|Hin].
  - rewrite Hp. eexists; reflexivity.
  - destruct (w_files st q) as [d|]; [|eexists; reflexivity].
    unfold ret. apply IH; assumption.
Qed.

(** A successful [combine_dxf_files] on [[a; b]] saves one drawing, whose
    content is given layer by layer. *)
Lemma combine_ok a b out all st da db i :
  w_files st a = Some da -> w_files st b = Some db ->
  find_index a all = Some i ->
  (forall p, In p (skipn i all) -> w_files st p <> None) ->
  combine_dxf_files [a; b] out all st =
  (Ok tt,
   mkWorld (fun q => if path_eqb q out then Some
              (mkDoc composite_layer_table
                 (map (set_layer "Boundaries_start") (query da "LWPOLYLINE" "Boundaries")
                  ++ map (set_layer "Margin") (query da "LWPOLYLINE" "Margin")
                  ++ map (set_layer "Boundaries_end") (query db "LWPOLYLINE" "Boundaries")
                  ++ flat_map (fun p => map (set_layer "Crosses")
                                          (stored_crosses (w_files st) p)) (skipn i all)))
              else w_files st q)
     (w_dirs st)
     (w_saved st ++
      [(out, mkDoc composite_layer_table
                 (map (set_layer "Boundaries_start") (query da "LWPOLYLINE" "Boundaries")
                  ++ map (set_layer "Margin") (query da "LWPOLYLINE" "Margin")
                  ++ map (set_layer "Boundaries_end") (query db "LWPOLYLINE" "Boundaries")
                  ++ flat_map (fun p => map (set_layer "Crosses")
                                          (stored_crosses (w_files st) p)) (skipn i all)))])).
Proof.
  intros Ha Hb Hi Hr.
  unfold combine_dxf_files, bind, add_layer, py_index, readfile, list_index, ret.
  simpl. rewrite Ha, Hb, Hi.
  rewrite mfold_copy_ok by exact Hr.
  simpl. rewrite <- !app_assoc. reflexivity.
Qed.

Lemma find_index_in x xs :
  In x xs -> exists i, find_index x xs = Some i /\ (i < List.length xs)%nat.
Proof.
  induction xs as [|y ys IH]; intros Hin; [destruct Hin|]. simpl.
  destruct (path_eqb y x) eqn:E.
  - exists O; split; [reflexivity|lia].
  - destruct Hin as [->|Hin]; [rewrite path_eqb_refl in E; discriminate|].
    destruct (IH Hin) as [i [Hi Hl]]. exists (S i). rewrite Hi; split; [reflexivity|lia].
Qed.

Lemma in_skipn {A} (x : A) n xs : In x (skipn n xs) -> In x xs.
Proof.
  revert xs; induction n as [|n IH]; intros [|y ys] H; simpl in *; auto.
Qed.

Lemma output_path_ok output_directory a b st :
  split_first (p_stem a) <> None -> split_first (p_stem b) <> None ->
  output_path output_directory [a; b] st =
  (Ok (group_output_path output_directory a b), st).
Proof.
  intros Ha Hb. unfold output_path, group_output_path, stem_token, bind, py_index, py_split0.
  simpl.
  destruct (split_first (p_stem a)); [|congruence].
  destruct (split_first (p_stem b)); [|congruence]. reflexivity.
Qed.

Lemma merge_loop_ok all output_directory gs st :
  (forall p, In p all -> w_files st p <> None) ->
  (forall p, In p all -> split_first (p_stem p) <> None) ->
  (forall a b, In (a, b) gs -> In a all /\ In b all) ->
  exists st',
    mfor gs (fun '(a, b) =>
      output_file <- output_path output_directory [a; b] ;;
      combine_dxf_files [a; b] output_file all) st = (Ok tt, st') /\
    map fst (w_saved st') =
    map fst (w_saved st) ++ map (fun '(a, b) => group_output_path output_directory a b) gs.
Proof.
  revert st; induction gs as [|[a b] gs IH]; intros st Hr Hs Hg; simpl.
  - exists st; split; [reflexivity|]. rewrite app_nil_r; reflexivity.
  - destruct (Hg a b (or_introl eq_refl)) as [Ha Hb].
    destruct (w_files st a) as [da|] eqn:Hda; [|exfalso; apply (Hr a Ha Hda)].
    destruct (w_files st b) as [db|] eqn:Hdb; [|exfalso; apply (Hr b Hb Hdb)].
    destruct (find_index_in a all Ha) as [i [Hi _]].
    unfold bind at 1.
    rewrite (bind_ok _ _ st _ st (output_path_ok output_directory a b st (Hs a Ha) (Hs b Hb))).
    rewrite (combine_ok a b _ all st da db i Hda Hdb Hi)
      by (intros p Hp; apply Hr; eapply in_skipn; exact Hp).
    fold (bind (A := unit) (B := unit)).
    match goal with |- context [mfor gs _ ?w] =>
      destruct (IH w) as [st' [Hrun Hsaved]]; [| exact Hs | |] end.
    + intros p Hp; cbn [w_files].
      destruct (path_eqb _ _); [congruence|apply Hr, Hp].
    + intros a' b' Hab; apply Hg; right; exact Hab.
    + exists st'; split; [exact Hrun|]. rewrite Hsaved. simpl.
      rewrite map_app, <- app_assoc. reflexivity.
Qed.

Lemma groups_in all w a b :
  1 <= w -> In (a, b) (groups all w) -> In a all /\ In b all.
Proof.
  intros Hw Hin. unfold groups in Hin.
  apply in_map_iff in Hin as [i [Heq Hi]]. inversion Heq; subst a b.
  apply in_group_starts in Hi; [|exact Hw].
  unfold nth_path, group_end. split.
  - apply nth_In; lia.
  - destruct (Z.ltb_spec (i + w) (Z.of_nat (List.length all))); apply nth_In; lia.
Qed.

Lemma groups_length dxf_files w :
  List.length (groups dxf_files w) =
  Z.to_nat ((Z.of_nat (List.length dxf_files) + w - 1) / w).
Proof. unfold groups, group_starts. rewrite !length_map, length_seq. reflexivity. Qed.

Lemma groups_nth dxf_files w k :
  1 <= w -> (k < List.length (groups dxf_files w))%nat ->
  Z.of_nat k * w < Z.of_nat (List.length dxf_files) /\
  nth_error (groups dxf_files w) k =
  Some (nth_path dxf_files (Z.of_nat k * w),
        nth_path dxf_files (group_end (Z.of_nat (List.length dxf_files)) w (Z.of_nat k * w))).
Proof.
  intros Hw Hk. rewrite groups_length in Hk.
  unfold groups, group_starts.
  rewrite !nth_error_map, nth_error_seq.
  destruct (Nat.ltb_spec k (Z.to_nat ((Z.of_nat (List.length dxf_files) + w - 1) / w)));
    [|lia].
  split; [|reflexivity].
  apply (in_group_starts _ w); [exact Hw|].
  unfold group_starts. apply (in_map (fun k0 => Z.of_nat k0 * w)). apply in_seq. lia.
Qed.

(** ** Claim C1 *)

(** C1: for a sequence of [L >= 1] files and a window [gap // 50 >= 1], the
    merge loop runs over exactly [ceil(L / window)] groups; the [k]-th group
    starts at index [i = k * window < L], uses [sequence[i]] as its start file
    and [sequence[i + window]] as its end file when that index exists,
    otherwise the last file; and when every file is readable (and every stem
    has a first token), the merge succeeds and saves exactly one composite per
    group, in order. *)
Theorem merge_dxf_files_by_gap_groups dxf_files gap output_directory st :
  let L := Z.of_nat (List.length dxf_files) in
  let window := gap / 50 in
  1 <= L -> 1 <= window ->
  merge_dxf_files_by_gap dxf_files gap output_directory st =
    (mkdir output_directory ;;;
     mfor (groups dxf_files window) (fun '(a, b) =>
       output_file <- output_path output_directory [a; b] ;;
       combine_dxf_files [a; b] output_file dxf_files)) st /\
  List.length (groups dxf_files window) = Z.to_nat ((L + window - 1) / window) /\
  (forall k, (k < List.length (groups dxf_files window))%nat ->
     Z.of_nat k * window < L /\
     nth_error (groups dxf_files window) k =
     Some (nth_path dxf_files (Z.of_nat k * window),
           nth_path dxf_files (group_end L window (Z.of_nat k * window)))) /\
  ((forall p, In p dxf_files -> w_files st p <> None) ->
   (forall p, In p dxf_files -> split_first (p_stem p) <> None) ->
   exists st',
     merge_dxf_files_by_gap dxf_files gap output_directory st = (Ok tt, st') /\
     map fst (w_saved st') =
     map fst (w_saved st) ++
     map (fun '(a, b) => group_output_path output_directory a b) (groups dxf_files window)).
Proof.
  intros L window HL Hw.
  split; [apply merge_as_groups; exact Hw|].
  split; [apply groups_length|].
  split; [intros k Hk; apply groups_nth; assumption|].
  intros Hr Hs.
  rewrite merge_as_groups by exact Hw.
  rewrite (bind_ok (mkdir output_directory) _ st tt
             (mkWorld (w_files st) (w_dirs st ++ [output_directory]) (w_saved st)) eq_refl).
  destruct (merge_loop_ok dxf_files output_directory (groups dxf_files window)
              (mkWorld (w_files st) (w_dirs st ++ [output_directory]) (w_saved st)))
    as [st' [Hrun Hsaved]].
  - exact Hr.
  - exact Hs.
  - intros a b Hab. apply (groups_in _ window); assumption.
  - exists st'. split; [exact Hrun | exact Hsaved].
Qed.

(** ** Claim C2 *)

Lemma nodup_find_index all i a :
  NoDup all -> nth_error all i = Some a -> find_index a all = Some i.
Proof.
  revert i; induction all as [|y ys IH]; intros i Hnd Hi; [destruct i; discriminate|].
  inversion Hnd as [|? ? Hy Hnd']; subst.
  destruct i as [|i]; simpl in Hi |- *.
  - inversion Hi; subst. rewrite path_eqb_refl. reflexivity.
  - destruct (path_eqb y a) eqn:E.
    + apply path_eqb_eq in E; subst. exfalso; apply Hy. eapply nth_error_In; exact Hi.
    + rewrite (IH i Hnd' Hi). reflexivity.
Qed.

Lemma filter_other_layer lay lay' es :
  lay <> lay' ->
  filter (fun e => String.eqb (e_layer e) lay') (map (set_layer lay) es) = [].
Proof.
  intros Hne. induction es as [|e es IH]; simpl; [reflexivity|].
  destruct (String.eqb_spec lay lay'); [contradiction|exact IH].
Qed.

Lemma filter_crosses_stored files xs :
  filter (fun e => String.eqb (e_layer e) "Crosses")
    (flat_map (fun p => map (set_layer "Crosses") (stored_crosses files p)) xs) =
  flat_map (stored_crosses files) xs.
Proof.
  induction xs as [|p xs IH]; simpl; [reflexivity|].
  rewrite filter_app, IH. f_equal.
  unfold stored_crosses. destruct (files p) as [d|]; [|reflexivity].
  unfold query. induction (d_msp d) as [|e es IHe]; simpl; [reflexivity|].
  destruct (String.eqb_spec (dxftype e) "CIRCLE"); simpl; [|exact IHe].
  destruct (String.eqb_spec (e_layer e) "Crosses"); simpl; [|exact IHe].
  rewrite IHe. f_equal. destruct e; simpl in *; subst; reflexivity.
Qed.

Ltac unfold_combine H :=
  unfold combine_dxf_files, bind, add_layer, py_index, readfile, list_index, ret,
    raise in H; simpl in H.

(** C2: the composite of the group whose start file is [sequence[i]] has on
    its ["Crosses"] layer exactly the ["Crosses"] circles of every file of the
    whole sequence from index [i] to the last file, in sequence order (file
    sequences list distinct paths, as a directory listing does). *)
Theorem combine_crosses_from_start all i a b out st st' :
  NoDup all -> nth_error all i = Some a ->
  combine_dxf_files [a; b] out all st = (Ok tt, st') ->
  exists d, w_saved st' = w_saved st ++ [(out, d)] /\
    layer_entities "Crosses" d = flat_map (stored_crosses (w_files st)) (skipn i all).
Proof.
  intros Hnd Hnth H.
  assert (Hi : find_index a all = Some i) by (apply nodup_find_index; assumption).
  destruct (w_files st a) as [da|] eqn:Ha.
  2:{ unfold_combine H. rewrite Ha in H. discriminate. }
  destruct (w_files st b) as [db|] eqn:Hb.
  2:{ unfold_combine H. rewrite Ha, Hb in H. discriminate. }
  assert (Hr : forall p, In p (skipn i all) -> w_files st p <> None).
  { intros p Hp Hnone. unfold_combine H. rewrite Ha, Hb, Hi in H.
    match type of H with context [mfold ?xs ?c copy_crosses ?w] =>
      destruct (mfold_copy_err xs c w p Hp Hnone) as [e He]; rewrite He in H end.
    discriminate. }
  rewrite (combine_ok a b out all st da db i Ha Hb Hi Hr) in H.
  inversion H; subst st'. clear H.
  eexists; split; [reflexivity|].
  unfold layer_entities; simpl.
  rewrite !filter_app.
  rewrite !filter_other_layer by discriminate.
  rewrite filter_crosses_stored. reflexivity.
Qed.

(** ** Claim C10 *)

Lemma mfold_copy_layers xs c st c' st' :
  mfold xs c copy_crosses st = (Ok c', st') -> d_layers c' = d_layers c /\ st' = st.
Proof.
  revert c; induction xs as [|p xs IH]; intros c H; simpl in H.
  - inversion H; auto.
  - unfold bind at 1, copy_crosses, bind, readfile, ret in H.
    destruct (w_files st p) as [d|]; [|discriminate].
    fold (bind (A := doc) (B := doc)) in H.
    apply IH in H. destruct H as [H1 H2]. split; [exact H1|exact H2].
Qed.

(** C10 (as the code does it): every composite saved by [combine_dxf_files]
    has the layer table of a new ezdxf document (layers ["0"] and
    ["Defpoints"]) followed by ["Boundaries_start"] (colour 7),
    ["Boundaries_end"] (5), ["Crosses"] (1) and ["Margin"] (3), whatever the
    input files and whatever the queries match. *)
Theorem combine_layer_table selected out all st st' :
  combine_dxf_files selected out all st = (Ok tt, st') ->
  exists d, w_saved st' = w_saved st ++ [(out, d)] /\
    d_layers d = composite_layer_table.
Proof.
  intros H. unfold_combine H.
  destruct (py_get selected 0) as [a|]; [|discriminate].
  destruct (w_files st a) as [da|]; [|discriminate].
  destruct (py_get selected (-1)) as [b|]; [|discriminate].
  destruct (w_files st b) as [db|]; [|discriminate].
  destruct (find_index a all) as [i|]; [|discriminate].
  match type of H with context [mfold ?xs ?c copy_crosses ?w] =>
    destruct (mfold xs c copy_crosses w) as [[c'|e] w'] eqn:Hm end;
    [|discriminate].
  apply mfold_copy_layers in Hm. destruct Hm as [Hl ->].
  unfold saveas in H. inversion H; subst st'.
  eexists; split; [reflexivity|]. rewrite Hl. reflexivity.
Qed.

(** ** Claim C8 *)

Lemma combine_read_failure a b out all st p :
  find_index a all = Some O -> In p all -> w_files st p = None ->
  exists e, combine_dxf_files [a; b] out all st = (Err e, st).
Proof.
  intros Hi Hp Hnone.
  unfold combine_dxf_files, bind, add_layer, py_index, readfile, list_index, ret, raise.
  simpl.
  destruct (w_files st a) as [da|]; [|eexists; reflexivity].
  destruct (w_files st b) as [db|]; [|eexists; reflexivity].
  rewrite Hi. simpl skipn.
  match goal with |- context [mfold ?xs ?c copy_crosses ?w] =>
    destruct (mfold_copy_err xs c w p Hp Hnone) as [e He]; rewrite He end.
  eexists; reflexivity.
Qed.

Lemma output_path_world od sel st r st' :
  output_path od sel st = (r, st') -> st' = st.
Proof.
  unfold output_path, bind, py_index, py_split0, ret, raise.
  destruct (py_get sel 0) as [a|]; [|congruence].
  destruct (split_first (p_stem a)); [|congruence].
  destruct (py_get sel (-1)) as [b|]; [|congruence].
  destruct (split_first (p_stem b)); congruence.
Qed.

Lemma groups_first all w :
  1 <= w -> 1 <= Z.of_nat (List.length all) ->
  exists gs, groups all w =
    (nth_path all 0, nth_path all (group_end (Z.of_nat (List.length all)) w 0)) :: gs.
Proof.
  intros Hw HL.
  assert (Hlen : (0 < List.length (groups all w))%nat).
  { rewrite groups_length.
    assert (1 <= (Z.of_nat (List.length all) + w - 1) / w).
    { apply Z.div_le_lower_bound; lia. }
    lia. }
  destruct (groups_nth all w O Hw Hlen) as [_ Hn].
  destruct (groups all w) as [|g gs]; [simpl in Hlen; lia|].
  simpl in Hn. inversion Hn. exists gs. reflexivity.
Qed.

Lemma find_index_head all :
  1 <= Z.of_nat (List.length all) -> find_index (nth_path all 0) all = Some O.
Proof.
  destruct all as [|x xs]; simpl; intros H; [lia|].
  unfold nth_path; simpl. rewrite path_eqb_refl. reflexivity.
Qed.

(** C8 (as the code does it): a read failure is not confined to one group.
    The exception of [ezdxf.readfile] is not caught, so it stops the whole
    merge; and since the first group reads every file of the sequence for its
    ["Crosses"] layer, one unreadable file anywhere in the sequence makes the
    merge fail in its first group, before any composite is saved. *)
Theorem merge_read_failure_aborts dxf_files gap output_directory st p :
  1 <= gap / 50 -> In p dxf_files -> w_files st p = None ->
  exists e, merge_dxf_files_by_gap dxf_files gap output_directory st =
    (Err e, mkWorld (w_files st) (w_dirs st ++ [output_directory]) (w_saved st)).
Proof.
  intros Hw Hp Hnone.
  assert (HL : 1 <= Z.of_nat (List.length dxf_files)).
  { destruct dxf_files; [destruct Hp|simpl; lia]. }
  rewrite merge_as_groups by exact Hw.
  set (st1 := mkWorld (w_files st) (w_dirs st ++ [output_directory]) (w_saved st)).
  rewrite (bind_ok (mkdir output_directory) _ st tt st1 eq_refl).
  destruct (groups_first dxf_files (gap / 50) Hw HL) as [gs ->].
  simpl mfor. unfold bind at 1 2.
  destruct (output_path output_directory _ st1) as [[out|e] st2] eqn:Ho;
    apply output_path_world in Ho; subst st2; [|exists e; reflexivity].
  destruct (combine_read_failure (nth_path dxf_files 0)
              (nth_path dxf_files (group_end (Z.of_nat (List.length dxf_files)) (gap / 50) 0))
              out dxf_files st1 p (find_index_head dxf_files HL) Hp Hnone) as [e He].
  rewrite He. exists e. reflexivity.
Qed.

(** ** Claim C7 *)

Definition keeps_dirs {A} (m : M A) : Prop :=
  forall st, w_dirs (snd (m st)) = w_dirs st.

Lemma keeps_dirs_bind {A B} (m : M A) (k : A -> M B) :
  keeps_dirs m -> (forall a, keeps_dirs (k a)) -> keeps_dirs (bind m k).
Proof.
  intros Hm Hk st. unfold bind. specialize (Hm st).
  destruct (m st) as [[a|e] st1]; simpl in *; [rewrite Hk|]; exact Hm.
Qed.

Lemma keeps_dirs_ret {A} (a : A) : keeps_dirs (ret a).
Proof. intros st; reflexivity. Qed.

Lemma keeps_dirs_raise {A} e : keeps_dirs (A := A) (raise e).
Proof. intros st; reflexivity. Qed.

Lemma keeps_dirs_readfile p : keeps_dirs (readfile p).
Proof. intros st; unfold readfile; destruct (w_files st p); reflexivity. Qed.

Lemma keeps_dirs_saveas p d : keeps_dirs (saveas p d).
Proof. intros st; reflexivity. Qed.

Lemma keeps_dirs_mfor {A} (xs : list A) body :
  (forall x, keeps_dirs (body x)) -> keeps_dirs (mfor xs body).
Proof.
  intros Hb; induction xs as [|x xs IH]; simpl;
    [apply keeps_dirs_ret | apply keeps_dirs_bind; auto].
Qed.

Lemma keeps_dirs_mfold {A B} (xs : list A) (acc : B) body :
  (forall b x, keeps_dirs (body b x)) -> keeps_dirs (mfold xs acc body).
Proof.
  intros Hb; revert acc; induction xs as [|x xs IH]; intros acc; simpl;
    [apply keeps_dirs_ret | apply keeps_dirs_bind; auto].
Qed.

Lemma keeps_dirs_match_option {A B} (o : option A) (f : A -> M B) (g : M B) :
  (forall a, keeps_dirs (f a)) -> keeps_dirs g ->
  keeps_dirs (match o with Some a => f a | None => g end).
Proof. destruct o; auto. Qed.

Create HintDb dirs.
#[local] Hint Resolve keeps_dirs_bind keeps_dirs_ret keeps_dirs_raise
  keeps_dirs_readfile keeps_dirs_saveas keeps_dirs_mfor keeps_dirs_mfold
  keeps_dirs_match_option : dirs.

Lemma keeps_dirs_add_layer n c d : keeps_dirs (add_layer n c d).
Proof. unfold add_layer; destruct existsb; auto with dirs. Qed.

Lemma keeps_dirs_combine sel out all : keeps_dirs (combine_dxf_files sel out all).
Proof.
  unfold combine_dxf_files, py_index, list_index, copy_crosses.
  repeat (apply keeps_dirs_bind; intros); auto using keeps_dirs_add_layer with dirs.
Qed.

Lemma keeps_dirs_output_path od sel : keeps_dirs (output_path od sel).
Proof.
  unfold output_path, py_index, py_split0.
  repeat (apply keeps_dirs_bind; intros); auto with dirs.
Qed.

Lemma keeps_dirs_select all w i : keeps_dirs (select_files all w i).
Proof.
  unfold select_files, py_index.
  destruct (py_get all i), (py_get all (i + w));
    repeat (apply keeps_dirs_bind; intros); auto with dirs.
Qed.

Lemma keeps_dirs_py_range a b c : keeps_dirs (py_range a b c).
Proof.
  unfold py_range; destruct (c =? 0); [|destruct (0 <? c)]; auto with dirs.
Qed.

Lemma merge_after_mkdir dxf_files gap od st :
  merge_dxf_files_by_gap dxf_files gap od st =
  (starts <- py_range 0 (Z.of_nat (List.length dxf_files)) (gap / 50) ;;
   mfor starts (fun i =>
     selected_files <- select_files dxf_files (gap / 50) i ;;
     output_file <- output_path od selected_files ;;
     combine_dxf_files selected_files output_file dxf_files))
    (mkWorld (w_files st) (w_dirs st ++ [od]) (w_saved st)).
Proof. reflexivity. Qed.

(** The cases of the merge once the output directory is created. *)
Lemma merge_config_cases dxf_files gap od st :
  let st1 := mkWorld (w_files st) (w_dirs st ++ [od]) (w_saved st) in
  In od (w_dirs (snd (merge_dxf_files_by_gap dxf_files gap od st))) /\
  (0 <= gap < 50 -> merge_dxf_files_by_gap dxf_files gap od st = (Err ValueError, st1)) /\
  (gap < 0 \/ (dxf_files = [] /\ 50 <= gap) ->
   merge_dxf_files_by_gap dxf_files gap od st = (Ok tt, st1)) /\
  merge_dxf_files_by_gap dxf_files gap od st =
  merge_dxf_files_by_gap dxf_files (50 * (gap / 50)) od st.
Proof.
  intros st1. split; [|split; [|split]].
  - rewrite merge_after_mkdir.
    assert (Hk : keeps_dirs
      (starts <- py_range 0 (Z.of_nat (List.length dxf_files)) (gap / 50) ;;
       mfor starts (fun i =>
         selected_files <- select_files dxf_files (gap / 50) i ;;
         output_file <- output_path od selected_files ;;
         combine_dxf_files selected_files output_file dxf_files))).
    { apply keeps_dirs_bind; [apply keeps_dirs_py_range|intros starts].
      apply keeps_dirs_mfor; intros i.
      apply keeps_dirs_bind; [apply keeps_dirs_select|intros sel].
      apply keeps_dirs_bind; [apply keeps_dirs_output_path|intros out].
      apply keeps_dirs_combine. }
    rewrite Hk. simpl. apply in_or_app; right; left; reflexivity.
  - intros Hg. rewrite merge_after_mkdir.
    assert (Hz : gap / 50 = 0) by (apply Z.div_small; lia).
    rewrite Hz. reflexivity.
  - intros Hg. rewrite merge_after_mkdir. unfold bind at 1, py_range.
    destruct Hg as [Hg | [-> Hg]].
    + assert (Hz : gap / 50 < 0) by (apply Z.div_lt_upper_bound; lia).
      destruct (Z.eqb_spec (gap / 50) 0); [lia|].
      destruct (Z.ltb_spec 0 (gap / 50)); [lia|].
      replace (Z.to_nat (0 - Z.of_nat (List.length dxf_files))) with O by lia.
      reflexivity.
    + assert (Hz : 1 <= gap / 50) by (apply Z.div_le_lower_bound; lia).
      destruct (Z.eqb_spec (gap / 50) 0); [lia|].
      destruct (Z.ltb_spec 0 (gap / 50)); [|lia].
      reflexivity.
  - unfold merge_dxf_files_by_gap.
    rewrite (Z.mul_comm 50 (gap / 50)), Z.div_mul by lia. reflexivity.
Qed.


(** ** Concrete runs *)

Lemma nodupb_NoDup xs : nodupb xs = true -> NoDup xs.
Proof.
  induction xs as [|x xs IH]; simpl; intros H; [constructor|].
  apply andb_true_iff in H as [Hx Hxs]. constructor; [|apply IH, Hxs].
  intros Hin. apply negb_true_iff in Hx.
  assert (existsb (path_eqb x) xs = true).
  { apply existsb_exists. exists x. split; [exact Hin|apply path_eqb_refl]. }
  congruence.
Qed.

(** C1 on the seven band files with [gap = 100]: four groups. *)
Lemma merge_dxf_files_by_gap_groups_witness :
  List.length (groups seven_files (100 / 50)) = 4%nat /\
  map (fun '(a, b) => p_stem (group_output_path "data/dxf100" a b))
    (groups seven_files (100 / 50)) =
  ["0m to 100m"; "100m to 200m"; "200m to 300m"; "300m to 300m"]%string /\
  exists st',
    merge_dxf_files_by_gap seven_files 100 "data/dxf100" (store_without []) = (Ok tt, st') /\
    map fst (w_saved st') =
    map (fun '(a, b) => group_output_path "data/dxf100" a b) (groups seven_files (100 / 50)).
Proof.
  pose proof (merge_dxf_files_by_gap_groups seven_files 100 "data/dxf100"
                (store_without [])) as H.
  cbv zeta in H.
  destruct H as [_ [Hlen [_ Hrun]]].
  - vm_compute. congruence.
  - vm_compute. congruence.
  - split; [rewrite Hlen; reflexivity|].
    split; [vm_compute; reflexivity|].
    destruct Hrun as [st' [Hm Hs]].
    + intros p _. simpl. congruence.
    + intros p Hp. repeat destruct Hp as [<-|Hp]; [vm_compute; congruence ..|destruct Hp].
    + exists st'. split; [exact Hm|]. rewrite Hs. reflexivity.
Defined.

(** C2 on the seven band files: the group starting at index 2 (end file at
    index 4) collects the markers of the files at indices 2 to 6. *)
Lemma combine_crosses_from_start_witness :
  exists d,
    w_saved (snd (combine_dxf_files [band_file 100; band_file 200]
                   (mkPath "data/dxf100" "100m to 200m" ".dxf") seven_files
                   (store_without []))) =
    w_saved (store_without []) ++ [(mkPath "data/dxf100" "100m to 200m" ".dxf", d)] /\
    layer_entities "Crosses" d =
    flat_map (stored_crosses (w_files (store_without []))) (skipn 2 seven_files).
Proof.
  apply (combine_crosses_from_start seven_files 2 (band_file 100) (band_file 200)
           (mkPath "data/dxf100" "100m to 200m" ".dxf") (store_without [])).
  - apply nodupb_NoDup. vm_compute. reflexivity.
  - reflexivity.
  - reflexivity.
Defined.



(** C8 refuted: three band files with the middle one unreadable and
    [gap = 50]; the merge raises in its first group and saves nothing, although
    the third group alone (start and end file [100m to 150m]) can be
    merged. *)
Lemma merge_unreadable_file_stops_all :
  merge_dxf_files_by_gap (firstn 3 seven_files) 50 "data/dxf50"
    (store_without [band_file 50]) =
  (Err (IOError (band_file 50)),
   mkWorld (w_files (store_without [band_file 50])) ["data/dxf50"%string] []) /\
  fst (combine_dxf_files [band_file 100; band_file 100]
         (mkPath "data/dxf50" "100m to 100m" ".dxf") (firstn 3 seven_files)
         (store_without [band_file 50])) = Ok tt.
Proof. split; reflexivity. Qed.

(** C8 as the code does it, on the same input. *)
Lemma merge_read_failure_aborts_witness :
  exists e,
    merge_dxf_files_by_gap (firstn 3 seven_files) 50 "data/dxf50"
      (store_without [band_file 50]) =
    (Err e, mkWorld (w_files (store_without [band_file 50])) ["data/dxf50"%string] []).
Proof.
  apply (merge_read_failure_aborts (firstn 3 seven_files) 50 "data/dxf50"
           (store_without [band_file 50]) (band_file 50)).
  - vm_compute. congruence.
  - right; left; reflexivity.
  - reflexivity.
Defined.

(** C10 refuted: every composite of the seven-file run has six layers, the
    default ["0"] and ["Defpoints"] among them. *)
Lemma composite_has_default_layers :
  map (fun pd => layer_names (snd pd))
    (w_saved (snd (merge_dxf_files_by_gap seven_files 100 "data/dxf100"
                     (store_without [])))) =
  repeat ["0"; "Defpoints"; "Boundaries_start"; "Boundaries_end"; "Crosses"; "Margin"]%string
    4.
Proof. vm_compute. reflexivity. Qed.

(** C10 as the code does it, on a concrete group. *)
Lemma combine_layer_table_witness :
  exists d,
    w_saved (snd (combine_dxf_files [band_file 0; band_file 100]
                   (mkPath "data/dxf100" "0m to 100m" ".dxf") seven_files
                   (store_without []))) =
    [(mkPath "data/dxf100" "0m to 100m" ".dxf", d)] /\
    d_layers d = composite_layer_table.
Proof.
  apply (combine_layer_table [band_file 0; band_file 100]
           (mkPath "data/dxf100" "0m to 100m" ".dxf") seven_files (store_without [])).
  reflexivity.
Defined.

(** ** Claim C5 *)

Lemma py_get_head {A} (xs : list A) d :
  xs <> [] -> py_get xs 0 = Some (nth 0 xs d).
Proof.
  destruct xs as [|x xs]; [congruence|]. intros _.
  unfold py_get. simpl. destruct (Z.ltb_spec 0 (Z.pos (Pos.of_succ_nat (List.length xs))));
    [reflexivity|lia].
Qed.

Lemma linspace_length a b n : List.length (linspace a b n) = n.
Proof. unfold linspace. rewrite length_map, length_seq. reflexivity. Qed.

Lemma linspace_nth n k :
  (1 < n)%nat -> (k < n)%nat ->
  (nth k (linspace 0 1 n) 0 == inject_Z (Z.of_nat k) / inject_Z (Z.of_nat n - 1))%Q.
Proof.
  intros Hn Hk. unfold linspace.
  erewrite nth_error_nth;
    [|rewrite nth_error_map, nth_error_seq;
      destruct (Nat.ltb_spec k n); [reflexivity|lia]].
  simpl Nat.add.
  assert (Hnz : ~ (inject_Z (Z.of_nat n - 1) == 0)%Q).
  { intros H. change (inject_Z (Z.of_nat n - 1) == inject_Z 0)%Q in H.
    rewrite inject_Z_injective in H. lia. }
  field. exact Hnz.
Qed.

(** C5: whenever the spline fit succeeds, [smooth_boundary] returns 501
    x-coordinates and 501 y-coordinates whose first and last points coincide;
    the first 500 points are the fitted curve at the 500 parameters of
    [np.linspace(0, 1, 500)], which are [k / 499] for [k < 500] (evenly spaced
    from 0 to 1), and the 501st repeats the first. *)
Theorem smooth_boundary_closed tck_t splprep spline_at x y s tck st :
  splprep x y s = Some tck ->
  exists sx sy,
    smooth_boundary tck_t splprep spline_at x y s st = (Ok (sx, sy), st) /\
    List.length sx = 501%nat /\ List.length sy = 501%nat /\
    nth 0 sx 0%Q = nth 500 sx 0%Q /\ nth 0 sy 0%Q = nth 500 sy 0%Q /\
    (forall k, (k < 500)%nat ->
       nth k sx 0%Q = fst (spline_at tck (nth k (linspace 0 1 500) 0%Q)) /\
       nth k sy 0%Q = snd (spline_at tck (nth k (linspace 0 1 500) 0%Q)) /\
       (nth k (linspace 0 1 500) 0%Q == inject_Z (Z.of_nat k) / 499)%Q).
Proof.
  intros Hfit. unfold smooth_boundary. rewrite Hfit.
  set (u := linspace 0 1 500).
  assert (Hu : List.length u = 500%nat) by apply linspace_length.
  set (fx := fun t => fst (spline_at tck t)).
  set (fy := fun t => snd (spline_at tck t)).
  unfold splev. fold fx fy.
  assert (Hne : forall f : Q -> Q, map f u <> []).
  { intros f Hm. apply (f_equal (@List.length Q)) in Hm. rewrite length_map, Hu in Hm.
    discriminate. }
  unfold bind, append_first, bind, py_index.
  rewrite (py_get_head _ 0%Q (Hne fx)), (py_get_head _ 0%Q (Hne fy)).
  unfold ret.
  exists (map fx u ++ [nth 0 (map fx u) 0%Q]), (map fy u ++ [nth 0 (map fy u) 0%Q]).
  split; [reflexivity|].
  rewrite !length_app, !length_map, Hu.
  split; [reflexivity|]. split; [reflexivity|].
  split.
  { rewrite app_nth1 by (rewrite length_map, Hu; lia).
    rewrite app_nth2 by (rewrite length_map, Hu; lia).
    rewrite length_map, Hu. reflexivity. }
  split.
  { rewrite app_nth1 by (rewrite length_map, Hu; lia).
    rewrite app_nth2 by (rewrite length_map, Hu; lia).
    rewrite length_map, Hu. reflexivity. }
  intros k Hk.
  rewrite !app_nth1 by (rewrite length_map, Hu; lia).
  split; [|split].
  - unfold fx. rewrite nth_indep with (d' := fx 0%Q) by (rewrite length_map, Hu; exact Hk).
    rewrite map_nth. reflexivity.
  - unfold fy. rewrite nth_indep with (d' := fy 0%Q) by (rewrite length_map, Hu; exact Hk).
    rewrite map_nth. reflexivity.
  - unfold u. rewrite linspace_nth by lia. reflexivity.
Qed.

(** ** Claim C3 *)

Lemma mfold_filter_mmap (f : polygon -> M (list Q * list Q)) thr ps acc st :
  mfold ps acc (fun acc polygon =>
    if Qgtb (area polygon) thr then b <- f polygon ;; ret (acc ++ [b]) else ret acc) st =
  (bs <- mmap f (filter (fun p => Qgtb (area p) thr) ps) ;; ret (acc ++ bs)) st.
Proof.
  revert acc st; induction ps as [|p ps IH]; intros acc st; simpl.
  - unfold bind, ret. rewrite app_nil_r. reflexivity.
  - cbv [bind ret] in IH |- *.
    destruct (Qgtb (area p) thr).
    + cbn [mmap]. cbv [bind ret].
      destruct (f p st) as [[b|e] st1]; [|reflexivity].
      rewrite IH.
      destruct (mmap f _ st1) as [[bs|e] st2]; [|reflexivity].
      rewrite <- app_assoc. reflexivity.
    + apply IH.
Qed.

(** C3 (as the code does it): the area filter applies to the components of
    a multi-polygon hull only.  For a [MultiPolygon], exactly the components
    of area greater than the threshold are smoothed, in order, and they make
    the band's boundaries; for a single [Polygon], the hull is smoothed and
    kept whatever its area and whatever the threshold; any other hull
    geometry gives no boundary. *)
Theorem hull_boundaries_area_filter tck_t splprep spline_at thr sf :
  (forall ps st,
     hull_boundaries tck_t splprep spline_at (HMultiPolygon ps) thr sf st =
     mmap (fun p => smooth_polygon tck_t splprep spline_at p sf)
       (filter (fun p => Qgtb (area p) thr) ps) st) /\
  (forall p thr' st,
     hull_boundaries tck_t splprep spline_at (HPolygon p) thr sf st =
     hull_boundaries tck_t splprep spline_at (HPolygon p) thr' sf st /\
     hull_boundaries tck_t splprep spline_at (HPolygon p) thr sf st =
     (b <- smooth_polygon tck_t splprep spline_at p sf ;; ret [b]) st) /\
  (forall st, hull_boundaries tck_t splprep spline_at HOther thr sf st = (Ok [], st)).
Proof.
  split; [|split].
  - intros ps st. unfold hull_boundaries. rewrite mfold_filter_mmap.
    unfold bind, ret. destruct (mmap _ _ st) as [[bs|e] st1]; reflexivity.
  - intros p thr' st. split; reflexivity.
  - intros st. reflexivity.
Qed.

(** ** Claim C4 *)

Lemma band_loop_thresholds body base k0 cats :
  band_loop body (base + Z.of_nat k0) cats (Qred (4 - (2 # 100) * inject_Z (Z.of_nat k0))) =
  mfor (combine (seq k0 (List.length cats)) cats) (fun '(k, c) =>
    body (base + Z.of_nat k) c (Qred (4 - (2 # 100) * inject_Z (Z.of_nat k)))).
Proof.
  revert k0; induction cats as [|c cats IH]; intros k0;
    cbn [band_loop mfor combine seq List.length]; [reflexivity|].
  replace (base + Z.of_nat k0 + 1) with (base + Z.of_nat (S k0)) by lia.
  replace (Qred (Qred (4 - (2 # 100) * inject_Z (Z.of_nat k0)) - (2 # 100)))
    with (Qred (4 - (2 # 100) * inject_Z (Z.of_nat (S k0)))).
  - rewrite IH. reflexivity.
  - apply Qred_complete. rewrite Qred_correct.
    rewrite Nat2Z.inj_succ, <- Z.add_1_r, inject_Z_plus. ring.
Qed.

(** C4 (as the code does it): [area_threshold] starts at 4.0 for the first
    band processed by the call and drops by 0.02 per band, so the [k]-th
    processed band (index [idx = start + k] in the sorted list) is filtered
    with [4.0 - 0.02 * k = 4.0 - 0.02 * (idx - start)]: the threshold follows
    the sort index only when [start = 0]. *)
Theorem plot_concave_hull_thresholds tck_t splprep spline_at alphashape data
  sorted_categories alpha start end_ sf save_dxf :
  (forall st,
     plot_concave_hull tck_t splprep spline_at alphashape data sorted_categories
       alpha start end_ sf save_dxf st =
     mfor (enumerate (py_slice sorted_categories start end_)) (fun '(k, c) =>
       band_body tck_t splprep spline_at alphashape data sorted_categories alpha sf
         save_dxf (start + Z.of_nat k) c
         (Qred (4 - (2 # 100) * inject_Z (Z.of_nat k)))) st) /\
  (forall k : nat,
     (Qred (4 - (2 # 100) * inject_Z (Z.of_nat (S k))) ==
      Qred (4 - (2 # 100) * inject_Z (Z.of_nat k)) - (2 # 100))%Q).
Proof.
  split.
  - intros st. unfold plot_concave_hull, enumerate.
    replace (4 # 1) with (Qred (4 - (2 # 100) * inject_Z (Z.of_nat 0))) by reflexivity.
    pattern start at 1. replace start with (start + Z.of_nat 0) by lia.
    rewrite band_loop_thresholds. reflexivity.
  - intros k. rewrite !Qred_correct.
    rewrite Nat2Z.inj_succ, <- Z.add_1_r, inject_Z_plus. ring.
Qed.

(** ** Concrete runs of the band loop *)

(** C3: a single-polygon hull of area 1 is smoothed and kept at threshold 4. *)
Lemma single_polygon_hull_not_filtered :
  (area (mkPolygon [(0, 0); (1, 0); (1, 1); (0, 1); (0, 0)]%Q 1) <= 4)%Q /\
  exists bs,
    hull_boundaries unit toy_splprep toy_spline_at
      (HPolygon (mkPolygon [(0, 0); (1, 0); (1, 1); (0, 1); (0, 0)]%Q 1)) 4 10
      empty_world = (Ok bs, empty_world) /\
    List.length bs = 1%nat.
Proof.
  split; [vm_compute; discriminate|].
  eexists; split; [vm_compute; reflexivity | reflexivity].
Qed.

(** C4: with [start = 1] the band at sort index 1 is filtered at 4.0, so the
    component of area 3.99 is dropped and the saved drawing has an empty
    ["Boundaries"] layer; at [4.0 - 0.02 * 1] the same component is kept. *)
Lemma plot_threshold_from_start_not_index :
  (exists st',
     plot_concave_hull unit toy_splprep toy_spline_at toy_alphashape two_bands
       two_categories 1 1 2 10 true empty_world = (Ok tt, st') /\
     map (fun '(p, d) => (p, layer_entities "Boundaries" d)) (w_saved st') =
     [(mkPath output_folder "50m to 100m" ".dxf50", [])]) /\
  (exists bs,
     hull_boundaries unit toy_splprep toy_spline_at
       (toy_alphashape [] 1) (4 - (2 # 100) * inject_Z 1) 10 empty_world =
     (Ok bs, empty_world) /\ List.length bs = 1%nat).
Proof.
  split; eexists; split; vm_compute; reflexivity.
Qed.

(** C5 on the toy spline: the curve closes at its 501st point. *)
Lemma smooth_boundary_closed_witness :
  toy_splprep [0; 1; 0]%Q [0; 0; 1]%Q 10 = Some tt /\
  exists sx sy,
    smooth_boundary unit toy_splprep toy_spline_at [0; 1; 0]%Q [0; 0; 1]%Q 10
      empty_world = (Ok (sx, sy), empty_world) /\
    List.length sx = 501%nat /\ List.length sy = 501%nat /\
    nth 0 sx 0%Q = nth 500 sx 0%Q /\ nth 0 sy 0%Q = nth 500 sy 0%Q /\
    (forall k, (k < 500)%nat ->
       nth k sx 0%Q = fst (toy_spline_at tt (nth k (linspace 0 1 500) 0%Q)) /\
       nth k sy 0%Q = snd (toy_spline_at tt (nth k (linspace 0 1 500) 0%Q)) /\
       (nth k (linspace 0 1 500) 0%Q == inject_Z (Z.of_nat k) / 499)%Q).
Proof.
  split; [reflexivity|].
  apply (smooth_boundary_closed unit toy_splprep toy_spline_at). reflexivity.
Defined.

(** ** C6: the markers of one band *)

Lemma smooth_boundary_world tck_t splprep spline_at x y s st r st' :
  smooth_boundary tck_t splprep spline_at x y s st = (r, st') -> st' = st.
Proof.
  unfold smooth_boundary.
  destruct (splprep x y s) as [tck|]; [|unfold raise; congruence].
  destruct (splev _ _ _ _) as [sx sy].
  cbv [bind append_first py_index ret raise].
  destruct (py_get sx 0); destruct (py_get sy 0); congruence.
Qed.

Lemma mfold_world {A B} (xs : list A) (acc : B) body st r st' :
  (forall acc x st r st', body acc x st = (r, st') -> st' = st) ->
  mfold xs acc body st = (r, st') -> st' = st.
Proof.
  intros Hb; revert acc st; induction xs as [|x xs IH]; intros acc st H; simpl in H.
  - unfold ret in H; congruence.
  - unfold bind in H. destruct (body acc x st) as [[a|e] st1] eqn:E.
    + apply Hb in E. subst st1. exact (IH _ _ H).
    + apply Hb in E. congruence.
Qed.

Lemma hull_boundaries_world tck_t splprep spline_at h thr sf st r st' :
  hull_boundaries tck_t splprep spline_at h thr sf st = (r, st') -> st' = st.
Proof.
  destruct h as [p|ps|]; simpl.
  - unfold bind. destruct (smooth_polygon _ _ _ p sf st) as [[b|e] st1] eqn:E;
      unfold smooth_polygon in E; apply smooth_boundary_world in E; unfold ret; congruence.
  - apply mfold_world. intros acc x st0 r0 st0'.
    destruct (Qgtb (area x) thr).
    + unfold bind. destruct (smooth_polygon _ _ _ x sf st0) as [[b|e] st1] eqn:E;
        unfold smooth_polygon in E; apply smooth_boundary_world in E; unfold ret; congruence.
    + unfold ret; congruence.
  - unfold ret; congruence.
Qed.

Lemma fold_add_entity_msp {A} (g : doc -> A -> doc) (f : A -> entity) xs d :
  (forall d x, g d x = add_entity d (f x)) ->
  d_msp (fold_left g xs d) = d_msp d ++ map f xs.
Proof.
  intros Hg; revert d; induction xs as [|x xs IH]; intros d; simpl.
  - rewrite app_nil_r; reflexivity.
  - rewrite IH, Hg. simpl. rewrite <- app_assoc. reflexivity.
Qed.

Lemma filter_layer_const {A} (f : A -> entity) L lay xs :
  (forall x, e_layer (f x) = L) ->
  filter (fun e => String.eqb (e_layer e) lay) (map f xs) =
  if String.eqb L lay then map f xs else [].
Proof.
  intros Hf; induction xs as [|x xs IH]; simpl; [destruct (String.eqb L lay); reflexivity|].
  rewrite Hf, IH. destruct (String.eqb L lay); reflexivity.
Qed.

Lemma save_combined_crosses bs crosses fn st :
  exists d,
    save_combined_to_dxf bs crosses fn st = saveas fn d st /\
    layer_entities "Crosses" d =
    map (fun '(x, y) => mkEntity "Crosses" (Circle (x, y) (1 # 2))) crosses.
Proof.
  unfold save_combined_to_dxf, add_layer, bind, ret. simpl.
  eexists; split; [reflexivity|].
  unfold layer_entities, add_entity. cbn [d_msp].
  rewrite filter_app.
  rewrite (fold_add_entity_msp _ (fun '(x, y) => mkEntity "Crosses" (Circle (x, y) (1 # 2))))
    by (intros ? [? ?]; reflexivity).
  rewrite (fold_add_entity_msp _ (fun '(sx, sy) => mkEntity "Boundaries" (LWPolyline (combine sx sy))))
    by (intros ? [? ?]; reflexivity).
  cbn [d_msp app]. rewrite filter_app.
  rewrite (filter_layer_const _ "Boundaries") by (intros [? ?]; reflexivity).
  rewrite (filter_layer_const _ "Crosses") by (intros [? ?]; reflexivity).
  simpl. rewrite app_nil_r. reflexivity.
Qed.

Lemma nth_error_in_skipn {A} (xs : list A) k x :
  nth_error xs k = Some x -> In x (skipn k xs).
Proof.
  revert xs; induction k as [|k IH]; intros [|y ys] H; simpl in *; try discriminate.
  - inversion H; left; reflexivity.
  - apply IH, H.
Qed.

Lemma in_py_slice_tail {A} (xs : list A) i x :
  0 <= i -> nth_error xs (Z.to_nat i) = Some x ->
  In x (py_slice xs i (Z.of_nat (List.length xs))).
Proof.
  intros Hi Hx. unfold py_slice. cbv zeta.
  assert (Hl : (Z.to_nat i < List.length xs)%nat) by (apply nth_error_Some; congruence).
  destruct (Z.ltb_spec i 0); [lia|].
  destruct (Z.ltb_spec (Z.of_nat (List.length xs)) 0); [lia|].
  rewrite firstn_all2 by (rewrite length_skipn; lia).
  rewrite Z.min_l by lia.
  apply nth_error_in_skipn, Hx.
Qed.

(** C6: when band [idx] of the sorted list, [cat], is drawn with [save_dxf],
    the drawing saved as [data/output/<cat>.dxf50] has, on its ["Crosses"]
    layer, one circle of radius 0.5 at [(longitude, latitude)] for each row
    of the band [cat] itself whose ['nom'] is present (not null), in row
    order, and nothing else (no circle at all without a ['nom'] column). *)
Theorem band_markers tck_t splprep spline_at alphashape data sorted_categories alpha sf
  idx cat thr st st' :
  0 <= idx -> nth_error sorted_categories (Z.to_nat idx) = Some cat ->
  band_body tck_t splprep spline_at alphashape data sorted_categories alpha sf true
    idx cat thr st = (Ok tt, st') ->
  exists d,
    w_saved st' = w_saved st ++ [(mkPath output_folder cat ".dxf50", d)] /\
    layer_entities "Crosses" d =
    map (fun r => mkEntity "Crosses" (Circle (longitude r, latitude r) (1 # 2)))
      (filter (fun r => String.eqb (category r) cat &&
                        (has_nom_column data && if nom r then true else false))
         (rows data)).
Proof.
  intros Hidx Hnth Hrun. unfold band_body in Hrun.
  pose proof (in_py_slice_tail _ _ _ Hidx Hnth) as Hin.
  set (subs := py_slice sorted_categories idx _) in *.
  unfold bind at 1 in Hrun.
  destruct (hull_boundaries _ _ _ _ _ _ st) as [[bs|e] st1] eqn:Eh; [|discriminate].
  apply hull_boundaries_world in Eh. subst st1.
  assert (Hl : (Z.to_nat idx < List.length sorted_categories)%nat)
    by (apply nth_error_Some; congruence).
  unfold bind, py_index in Hrun. rewrite py_get_nonneg in Hrun by lia.
  rewrite Hnth in Hrun. unfold ret in Hrun.
  match type of Hrun with
  | save_combined_to_dxf bs ?cr ?fn st = _ =>
      destruct (save_combined_crosses bs cr fn st) as [d [Hs Hc]]
  end.
  rewrite Hs in Hrun. unfold saveas in Hrun. inversion Hrun; subst st'. clear Hrun Hs.
  exists d; split; [reflexivity|]. rewrite Hc. clear Hc.
  destruct (has_nom_column data).
  - rewrite map_map. cbn [andb].
    replace (filter (fun r => if nom r then true else false)
               (filter (fun r => String.eqb (category r) cat)
                  (filter (fun r => existsb (String.eqb (category r)) subs) (rows data))))
      with (filter (fun r => String.eqb (category r) cat && if nom r then true else false)
              (rows data)).
    + apply map_ext; intros r; reflexivity.
    + induction (rows data) as [|r rs IH]; [reflexivity|].
      cbn [filter].
      destruct (String.eqb_spec (category r) cat) as [Hc'|Hc'].
      * assert (Hex : existsb (String.eqb (category r)) subs = true).
        { apply existsb_exists. exists cat. split; [exact Hin|].
          apply String.eqb_eq, Hc'. }
        rewrite Hex. cbn [filter andb]. rewrite Hc', String.eqb_refl.
        cbv beta iota. cbn [filter].
        destruct (nom r); cbv beta iota; rewrite IH; reflexivity.
      * cbn [andb].
        destruct (existsb (String.eqb (category r)) subs); cbn [filter];
          [destruct (String.eqb_spec (category r) cat); [contradiction|]|]; exact IH.
  - simpl. induction (rows data) as [|r rs IH]; [reflexivity|].
    simpl. rewrite andb_false_r. exact IH.
Qed.

(** C6 on two bands: band 1 ([50m to 100m]) saves one circle, at the named
    point [(3, 3)] of that band. *)
Lemma band_markers_witness :
  exists st',
    band_body unit toy_splprep toy_spline_at toy_alphashape two_bands two_categories
      0 10 true 1 "50m to 100m" (4 # 1) empty_world = (Ok tt, st') /\
    exists d,
      w_saved st' = w_saved empty_world ++
                    [(mkPath output_folder "50m to 100m" ".dxf50", d)] /\
      layer_entities "Crosses" d =
      map (fun r => mkEntity "Crosses" (Circle (longitude r, latitude r) (1 # 2)))
        (filter (fun r => String.eqb (category r) "50m to 100m" &&
                          (has_nom_column two_bands && if nom r then true else false))
           (rows two_bands)).
Proof.
  eexists; split; [vm_compute; reflexivity|].
  apply (band_markers unit toy_splprep toy_spline_at toy_alphashape two_bands
           two_categories 0 10 1 "50m to 100m" (4 # 1) empty_world);
    [lia | reflexivity | vm_compute; reflexivity].
Defined.

(** ** C9: the order of the bands *)

Lemma take_token_uint u t :
  take_token (NilEmpty.string_of_uint u ++ t) = (NilEmpty.string_of_uint u ++ take_token t)%string.
Proof. induction u; cbn [NilEmpty.string_of_uint String.append take_token is_space];
  try reflexivity; rewrite IHu; reflexivity. Qed.

Lemma rstrip_cons c a s :
  Ascii.eqb a c = false -> rstrip c (String a s) = String a (rstrip c s).
Proof. intros H. cbn [rstrip]. rewrite H, andb_false_r. reflexivity. Qed.

Lemma rstrip_uint u :
  rstrip "m" (NilEmpty.string_of_uint u ++ "m")%string = NilEmpty.string_of_uint u.
Proof.
  induction u; cbn [NilEmpty.string_of_uint String.append]; try reflexivity;
    rewrite rstrip_cons by reflexivity; rewrite IHu; reflexivity.
Qed.

Lemma split_first_int d t :
  split_first (NilZero.string_of_int d ++ t)%string =
  Some (NilZero.string_of_int d ++ take_token t)%string.
Proof.
  destruct d as [u|u]; destruct u;
    cbn [NilZero.string_of_int NilZero.string_of_uint NilEmpty.string_of_uint
         String.append split_first take_token is_space];
    rewrite ?take_token_uint; reflexivity.
Qed.

Lemma rstrip_int d :
  rstrip "m" (NilZero.string_of_int d ++ "m")%string = NilZero.string_of_int d.
Proof.
  destruct d as [u|u]; destruct u; try reflexivity;
    try exact (rstrip_uint _);
    cbn [NilZero.string_of_int String.append];
    rewrite rstrip_cons by reflexivity; f_equal; exact (rstrip_uint _).
Qed.

Lemma py_int_of_Z z st :
  py_int (NilZero.string_of_int (Z.to_int z)) st = (Ok z, st).
Proof.
  unfold py_int. rewrite <- (DecimalZ.of_to z) at 2.
  destruct (Z.to_int z) as [u|u]; destruct u; try reflexivity;
    rewrite NilZero.isi by discriminate; reflexivity.
Qed.

Lemma stem_key_label b lb st : stem_key (category_label b lb) st = (Ok lb, st).
Proof.
  unfold stem_key, category_label, str_of_Z, py_split0, bind.
  rewrite split_first_int.
  replace (take_token _) with "m"%string by reflexivity.
  unfold ret. rewrite rstrip_int. apply py_int_of_Z.
Qed.

Lemma category_label_inj b lb1 lb2 :
  category_label b lb1 = category_label b lb2 -> lb1 = lb2.
Proof.
  intros H. pose proof (stem_key_label b lb1 empty_world) as H1.
  rewrite H, stem_key_label in H1. congruence.
Qed.

Lemma bin_lower_bounds a :
  (inject_Z (bin_lower 50 a) <= a /\ a < inject_Z (bin_lower 50 a + 50))%Q.
Proof.
  unfold bin_lower.
  pose proof (Qfloor_le (a / inject_Z 50)) as H1.
  pose proof (Qlt_floor (a / inject_Z 50)) as H2.
  set (m := Qfloor (a / inject_Z 50)) in *.
  assert (Ha : (a == a / inject_Z 50 * 50)%Q) by (field; discriminate).
  rewrite inject_Z_plus in H2 |- *. rewrite inject_Z_mult.
  change (inject_Z 50) with (50 # 1) in *. change (inject_Z 1) with 1%Q in H2.
  lra.
Qed.

Lemma sum_bounds (xs : list Q) lo hi :
  xs <> [] -> (forall x, In x xs -> lo <= x < hi)%Q ->
  (inject_Z (Z.of_nat (List.length xs)) * lo <= fold_right Qplus 0 xs /\
   fold_right Qplus 0 xs < inject_Z (Z.of_nat (List.length xs)) * hi)%Q.
Proof.
  induction xs as [|x xs IH]; intros Hne Hb; [congruence|].
  cbn [List.length fold_right]. rewrite Nat2Z.inj_succ, <- Z.add_1_r, inject_Z_plus.
  change (inject_Z 1) with 1%Q.
  destruct (Hb x (or_introl eq_refl)) as [Hx1 Hx2].
  destruct xs as [|y ys].
  - cbn [List.length fold_right Z.of_nat]. change (inject_Z 0) with 0%Q. lra.
  - destruct (IH ltac:(discriminate) (fun z Hz => Hb z (or_intror Hz))) as [H1 H2].
    lra.
Qed.

Lemma mean_bounds xs lo hi :
  xs <> [] -> (forall x, In x xs -> lo <= x < hi)%Q -> (lo <= mean xs < hi)%Q.
Proof.
  intros Hne Hb. destruct (sum_bounds xs lo hi Hne Hb) as [H1 H2].
  assert (Hn : (0 < inject_Z (Z.of_nat (List.length xs)))%Q).
  { destruct xs; [congruence|]. change 0%Q with (inject_Z 0). rewrite <- Zlt_Qlt.
    cbn [List.length]. lia. }
  unfold mean. split.
  - apply Qle_shift_div_l; [exact Hn|]. rewrite Qmult_comm. exact H1.
  - apply Qlt_shift_div_r; [exact Hn|]. rewrite Qmult_comm. exact H2.
Qed.

Lemma categorized_label data r :
  In r (map (categorize 50) data) ->
  category r = category_label 50 (bin_lower 50 (altitude r)).
Proof. intros H; apply in_map_iff in H as [r0 [<- _]]; reflexivity. Qed.

Lemma category_of_band data k :
  In k (map category (map (categorize 50) data)) ->
  exists m, k = category_label 50 (m * 50).
Proof.
  intros Hk. apply in_map_iff in Hk as [r [<- Hr]].
  rewrite (categorized_label _ _ Hr). eexists; reflexivity.
Qed.

Lemma group_mean_bounds data k lb :
  In k (map category (map (categorize 50) data)) -> k = category_label 50 lb ->
  (inject_Z lb <= group_mean (map (categorize 50) data) k < inject_Z (lb + 50))%Q.
Proof.
  intros Hk Hlb. unfold group_mean. apply mean_bounds.
  - apply in_map_iff in Hk as [r [Hr Hin]]. intros E.
    assert (Hx : In (altitude r) (map altitude
                   (filter (fun r => String.eqb (category r) k) (map (categorize 50) data)))).
    { apply in_map, filter_In. split; [exact Hin|]. apply String.eqb_eq, Hr. }
    rewrite E in Hx. contradiction.
  - intros x Hx. apply in_map_iff in Hx as [r [<- Hr]]. apply filter_In in Hr as [Hr Heq].
    apply String.eqb_eq in Heq. rewrite (categorized_label _ _ Hr), Hlb in Heq.
    apply category_label_inj in Heq. rewrite <- Heq. apply bin_lower_bounds.
Qed.

Lemma mean_order_agrees data k1 k2 m1 m2 :
  In k1 (map category (map (categorize 50) data)) ->
  In k2 (map category (map (categorize 50) data)) ->
  k1 = category_label 50 (m1 * 50) -> k2 = category_label 50 (m2 * 50) ->
  Qle_bool (group_mean (map (categorize 50) data) k1)
           (group_mean (map (categorize 50) data) k2) = Z.leb (m1 * 50) (m2 * 50).
Proof.
  intros H1 H2 E1 E2.
  destruct (group_mean_bounds _ _ _ H1 E1) as [L1 U1].
  destruct (group_mean_bounds _ _ _ H2 E2) as [L2 U2].
  set (g1 := group_mean _ k1) in *. set (g2 := group_mean _ k2) in *.
  destruct (Z.lt_trichotomy m1 m2) as [Hlt|[Heq|Hgt]].
  - replace (Z.leb (m1 * 50) (m2 * 50)) with true by (symmetry; apply Z.leb_le; lia).
    apply Qle_bool_iff.
    assert (Hz : (inject_Z (m1 * 50 + 50) <= inject_Z (m2 * 50))%Q)
      by (rewrite <- Zle_Qle; lia).
    lra.
  - subst m2. rewrite <- E2 in E1. subst k1. rewrite Z.leb_refl.
    apply Qle_bool_iff, Qle_refl.
  - replace (Z.leb (m1 * 50) (m2 * 50)) with false by (symmetry; apply Z.leb_gt; lia).
    destruct (Qle_bool g1 g2) eqn:E; [|reflexivity].
    apply Qle_bool_iff in E.
    assert (Hz : (inject_Z (m2 * 50 + 50) <= inject_Z (m1 * 50))%Q)
      by (rewrite <- Zle_Qle; lia).
    lra.
Qed.

Lemma insert_by_in {A} (le : A -> A -> bool) x ys y :
  In y (insert_by le x ys) -> y = x \/ In y ys.
Proof.
  induction ys as [|z zs IH]; cbn [insert_by]; [intros [H|[]]; auto|].
  destruct (le x z); intros H.
  - destruct H as [H|H]; auto.
  - destruct H as [H|H]; [right; left; exact H|].
    destruct (IH H); [left|right; right]; assumption.
Qed.

Lemma sort_by_in {A} (le : A -> A -> bool) xs y :
  In y (sort_by le xs) -> In y xs.
Proof.
  induction xs as [|x xs IH]; cbn [sort_by fold_right]; [intros []|].
  intros H. apply insert_by_in in H as [H|H]; [left; symmetry; exact H|].
  right. apply IH, H.
Qed.

Lemma insert_by_ext {A} (le1 le2 : A -> A -> bool) x ys :
  (forall y, In y ys -> le1 x y = le2 x y) -> insert_by le1 x ys = insert_by le2 x ys.
Proof.
  induction ys as [|z zs IH]; intros H; cbn [insert_by]; [reflexivity|].
  rewrite (H z (or_introl eq_refl)).
  destruct (le2 x z); [reflexivity|].
  rewrite IH by (intros y Hy; apply H; right; exact Hy). reflexivity.
Qed.

Lemma sort_by_ext {A} (le1 le2 : A -> A -> bool) xs :
  (forall x y, In x xs -> In y xs -> le1 x y = le2 x y) ->
  sort_by le1 xs = sort_by le2 xs.
Proof.
  induction xs as [|x xs IH]; intros H; [reflexivity|].
  unfold sort_by; cbn [fold_right]. fold (sort_by le1 xs) (sort_by le2 xs).
  rewrite IH by (intros a b Ha Hb; apply H; right; assumption).
  apply insert_by_ext. intros y Hy. apply H; [left; reflexivity|].
  right. apply (sort_by_in le2), Hy.
Qed.

Lemma insert_by_map {A B} (le : B -> B -> bool) (f : A -> B) x ys :
  insert_by le (f x) (map f ys) = map f (insert_by (fun a b => le (f a) (f b)) x ys).
Proof.
  induction ys as [|y ys IH]; cbn [insert_by map]; [reflexivity|].
  destruct (le (f x) (f y)); [reflexivity|]. rewrite IH. reflexivity.
Qed.

Lemma sort_by_map {A B} (le : B -> B -> bool) (f : A -> B) xs :
  sort_by le (map f xs) = map f (sort_by (fun a b => le (f a) (f b)) xs).
Proof.
  induction xs as [|x xs IH]; [reflexivity|].
  unfold sort_by; cbn [fold_right map]. fold (sort_by le (map f xs)).
  fold (sort_by (fun a b => le (f a) (f b)) xs).
  rewrite IH. apply insert_by_map.
Qed.

Lemma sort_pairs {A B} (le : B -> B -> bool) (g : A -> B) xs :
  map fst (sort_by (fun a b => le (snd a) (snd b)) (map (fun x => (x, g x)) xs)) =
  sort_by (fun a b => le (g a) (g b)) xs.
Proof.
  rewrite sort_by_map, map_map.
  rewrite (map_ext _ (fun x => x)) by reflexivity. apply map_id.
Qed.

Lemma combine_map {A B} (g : A -> B) xs : combine xs (map g xs) = map (fun x => (x, g x)) xs.
Proof. induction xs as [|x xs IH]; cbn; [reflexivity|]. rewrite IH; reflexivity. Qed.

Lemma mmap_pure {A B} (f : A -> M B) (g : A -> B) xs st :
  (forall x, In x xs -> f x st = (Ok (g x), st)) -> mmap f xs st = (Ok (map g xs), st).
Proof.
  induction xs as [|x xs IH]; intros H; [reflexivity|].
  cbn [mmap]. unfold bind at 1. rewrite (H x (or_introl eq_refl)).
  unfold bind. rewrite IH by (intros y Hy; apply H; right; exact Hy). reflexivity.
Qed.

Lemma group_keys_incl xs : incl (group_keys xs) xs.
Proof.
  induction xs as [|x xs IH]; intros y Hy; cbn [group_keys] in Hy; [exact Hy|].
  destruct Hy as [Hy|Hy]; [left; exact Hy|].
  apply filter_In in Hy as [Hy _]. right. apply IH, Hy.
Qed.

(** C9: after [categorize_and_sort] (bin size 50), ordering the band labels
    by the mean altitude of their points gives the order of the numeric key
    [int(label.split()[0].rstrip('m'))] that the merge stage sorts by,
    whatever the order [groupby] lists the bands in; in particular the
    returned [sorted_categories] is already in that numeric order. *)
Theorem band_order_mean_is_numeric data st :
  (forall ks, incl ks (map category (fst (categorize_and_sort data 50))) ->
     sorted_by stem_key ks st =
     (Ok (sort_values_by_mean (fst (categorize_and_sort data 50)) ks), st)) /\
  sorted_by stem_key (group_keys (map category (fst (categorize_and_sort data 50)))) st =
  (Ok (snd (categorize_and_sort data 50)), st).
Proof.
  cbn [categorize_and_sort fst snd].
  set (data' := map (categorize 50) data).
  assert (Hall : forall ks, incl ks (map category data') ->
     sorted_by stem_key ks st = (Ok (sort_values_by_mean data' ks), st)).
  { intros ks Hks.
    set (K := fun k => match fst (stem_key k st) with Ok z => z | Err _ => 0 end).
    assert (HK : forall k, In k ks ->
              exists m, k = category_label 50 (m * 50) /\ K k = m * 50 /\
                        stem_key k st = (Ok (K k), st)).
    { intros k Hk. destruct (category_of_band data k (Hks k Hk)) as [m Hm].
      exists m. unfold K. rewrite Hm, stem_key_label. auto. }
    unfold sorted_by, bind.
    rewrite (mmap_pure _ K) by (intros k Hk; destruct (HK k Hk) as [m [_ [_ H]]]; exact H).
    unfold ret, sort_values_by_mean. rewrite combine_map, !sort_pairs.
    do 2 f_equal. apply sort_by_ext. intros k1 k2 H1 H2.
    destruct (HK k1 H1) as [m1 [E1 [K1 _]]], (HK k2 H2) as [m2 [E2 [K2 _]]].
    rewrite K1, K2. symmetry. apply (mean_order_agrees data k1 k2 m1 m2); auto. }
  split; [exact Hall|]. apply Hall, group_keys_incl.
Qed.

(** C9 on six altitudes: from the lexicographic group order, both sorts give
    [-50, 0, 50, 100, 1000]. *)
Lemma band_order_mean_is_numeric_witness :
  incl lex_categories (map category (fst (categorize_and_sort six_heights 50))) /\
  sorted_by stem_key lex_categories empty_world =
  (Ok (sort_values_by_mean (fst (categorize_and_sort six_heights 50)) lex_categories),
   empty_world) /\
  sort_values_by_mean (fst (categorize_and_sort six_heights 50)) lex_categories =
  ["-50m to 0m"; "0m to 50m"; "50m to 100m"; "100m to 150m"; "1000m to 1050m"]%string.
Proof.
  assert (Hincl : incl lex_categories
                    (map category (fst (categorize_and_sort six_heights 50)))).
  { intros k Hk. vm_compute in Hk |- *.
    repeat (destruct Hk as [<-|Hk]; [auto 20|]). destruct Hk. }
  split; [exact Hincl|]. split.
  - apply (proj1 (band_order_mean_is_numeric six_heights empty_world)), Hincl.
  - vm_compute. reflexivity.
Defined.

(** * Further properties of the code *)

(** ** [create_circle] and [create_cross_lines] *)

Lemma py_range_from0 n st :
  0 <= n -> py_range 0 n 1 st = (Ok (map Z.of_nat (seq 0 (Z.to_nat n))), st).
Proof.
  intros Hn. unfold py_range. change (1 =? 0) with false. change (0 <? 1) with true.
  cbv iota. rewrite range_up_count by lia.
  replace ((n - 0 + 1 - 1) / 1) with n by (rewrite Z.div_1_r; lia).
  unfold ret. f_equal. f_equal. apply map_ext; intros; lia.
Qed.

(** [create_circle] with at least one segment returns [num_segments + 1]
    points: point [k] is at angle [2 pi k / num_segments] on the circle of
    centre [(x, y)] and radius [radius], and the last point repeats the
    first, closing the ring; with [num_segments <= 0] the loop adds no point
    and [circle_points[0]] raises [IndexError]. *)
Theorem create_circle_ring pi cos sin x y r n st :
  (1 <= n ->
   exists pts,
     create_circle pi cos sin x y r n st = (Ok pts, st) /\
     List.length pts = S (Z.to_nat n) /\
     nth_error pts (Z.to_nat n) = nth_error pts 0 /\
     forall k, (k < Z.to_nat n)%nat ->
       nth_error pts k =
       Some ((x + r * cos (2 * pi * inject_Z (Z.of_nat k) / inject_Z n))%Q,
             (y + r * sin (2 * pi * inject_Z (Z.of_nat k) / inject_Z n))%Q)) /\
  (n <= 0 -> create_circle pi cos sin x y r n st = (Err IndexError, st)).
Proof.
  split.
  - intros Hn. unfold create_circle.
    rewrite (bind_ok _ _ st _ st (py_range_from0 n st ltac:(lia))).
    rewrite map_map.
    set (f := fun k : nat => _).
    unfold bind, py_index. rewrite py_get_nonneg
      by (rewrite length_map, length_seq; lia).
    change (Z.to_nat 0) with O.
    assert (H0 : nth_error (map f (seq 0 (Z.to_nat n))) 0 = Some (f O)).
    { rewrite nth_error_map, nth_error_seq.
      destruct (Nat.ltb_spec 0 (Z.to_nat n)); [reflexivity|lia]. }
    rewrite H0. unfold ret.
    eexists; split; [reflexivity|]. split; [|split].
    + rewrite length_app, length_map, length_seq. simpl. lia.
    + rewrite nth_error_app2 by (rewrite length_map, length_seq; lia).
      rewrite length_map, length_seq, Nat.sub_diag.
      rewrite nth_error_app1 by (rewrite length_map, length_seq; lia).
      rewrite H0. reflexivity.
    + intros k Hk. rewrite nth_error_app1 by (rewrite length_map, length_seq; lia).
      rewrite nth_error_map, nth_error_seq.
      destruct (Nat.ltb_spec k (Z.to_nat n)); [|lia]. reflexivity.
  - intros Hn. unfold create_circle, py_range, bind.
    change (1 =? 0) with false. change (0 <? 1) with true. cbv iota.
    replace (Z.to_nat (n - 0)) with O by lia. reflexivity.
Qed.

(** [create_cross_lines(x, y, size)] returns two segments whose midpoints
    are both [(x, y)], which are perpendicular and of the same length
    ([2 sqrt 2 |size|], squared [8 size^2]); the first runs along the
    diagonal [/], with direction [(1, 1)]. *)
Theorem create_cross_lines_cross x y size :
  exists p1 q1 p2 q2,
    create_cross_lines x y size = ([p1; q1], [p2; q2]) /\
    ((fst p1 + fst q1) / 2 == x /\ (snd p1 + snd q1) / 2 == y)%Q /\
    ((fst p2 + fst q2) / 2 == x /\ (snd p2 + snd q2) / 2 == y)%Q /\
    ((fst q1 - fst p1) * (fst q2 - fst p2) + (snd q1 - snd p1) * (snd q2 - snd p2) == 0)%Q /\
    ((fst q1 - fst p1) ^ 2 + (snd q1 - snd p1) ^ 2 == 8 * size ^ 2)%Q /\
    ((fst q2 - fst p2) ^ 2 + (snd q2 - snd p2) ^ 2 == 8 * size ^ 2)%Q /\
    (fst q1 - fst p1 == snd q1 - snd p1)%Q.
Proof.
  do 4 eexists. split; [reflexivity|]. cbn [fst snd].
  repeat split; field.
Qed.

(** ** [save_combined_to_dxf] *)

Lemma fold_add_entity_layers {A} (g : doc -> A -> doc) (f : A -> entity) xs d :
  (forall d x, g d x = add_entity d (f x)) ->
  d_layers (fold_left g xs d) = d_layers d.
Proof.
  intros Hg; revert d; induction xs as [|x xs IH]; intros d; simpl; [reflexivity|].
  rewrite IH, Hg. reflexivity.
Qed.

(** [save_combined_to_dxf], given boundaries that each have at least one
    vertex (as the smoothed boundaries of [smooth_boundary] do), never fails
    and saves one drawing at [filename]: the default layers of a new document
    then ["Boundaries"] (colour 7), ["Crosses"] (1) and ["Margin"] (3); in its
    modelspace, one polyline on ["Boundaries"] per smoothed boundary (its [x]
    and [y] zipped, in order), then one circle of radius 0.5 on ["Crosses"]
    per cross, then the margin square [(0,0)-(333,333)] on ["Margin"].  No
    polyline of the drawing is vertex-less, so ezdxf writes every entity of
    it to the file. *)
Theorem save_combined_to_dxf_drawing bs crosses fn st :
  Forall (fun '(sx, sy) => combine sx sy <> []) bs ->
  exists d,
    save_combined_to_dxf bs crosses fn st = saveas fn d st /\
    d_layers d = d_layers ezdxf_new ++
                 [mkLayer "Boundaries" 7; mkLayer "Crosses" 1; mkLayer "Margin" 3] /\
    d_msp d =
    map (fun '(sx, sy) => mkEntity "Boundaries" (LWPolyline (combine sx sy))) bs ++
    map (fun '(x, y) => mkEntity "Crosses" (Circle (x, y) (1 # 2))) crosses ++
    [mkEntity "Margin" (LWPolyline margin_square)] /\
    Forall (fun e => e_shape e <> LWPolyline []) (d_msp d).
Proof.
  intros Hne.
  unfold save_combined_to_dxf, add_layer, bind, ret. simpl.
  eexists; split; [reflexivity|].
  match goal with
  | |- _ /\ d_msp ?d = ?m /\ _ => assert (Hm : d_msp d = m)
  end.
  2:{ split; [|split; [exact Hm|]].
      - unfold add_entity at 1. cbn [d_layers].
        rewrite (fold_add_entity_layers _
                   (fun '(x, y) => mkEntity "Crosses" (Circle (x, y) (1 # 2))))
          by (intros ? [? ?]; reflexivity).
        rewrite (fold_add_entity_layers _
                   (fun '(sx, sy) => mkEntity "Boundaries" (LWPolyline (combine sx sy))))
          by (intros ? [? ?]; reflexivity).
        reflexivity.
      - rewrite Hm. apply Forall_app. split.
        + apply Forall_map. eapply Forall_impl; [|exact Hne].
          intros [sx sy] H E. cbn in E. inversion E. contradiction.
        + apply Forall_app. split.
          * apply Forall_map, Forall_forall. intros [x y] _. discriminate.
          * constructor; [discriminate|constructor]. }
  unfold add_entity at 1. cbn [d_msp].
  rewrite (fold_add_entity_msp _ (fun '(x, y) => mkEntity "Crosses" (Circle (x, y) (1 # 2))))
    by (intros ? [? ?]; reflexivity).
  rewrite (fold_add_entity_msp _ (fun '(sx, sy) => mkEntity "Boundaries" (LWPolyline (combine sx sy))))
    by (intros ? [? ?]; reflexivity).
  cbn [d_msp app]. rewrite <- !app_assoc. reflexivity.
Qed.

(** ** [combine_dxf_files]: the boundary and margin layers *)

Lemma filter_same_layer lay es :
  filter (fun e => String.eqb (e_layer e) lay) (map (set_layer lay) es) = map (set_layer lay) es.
Proof.
  induction es as [|e es IH]; simpl; [reflexivity|]. rewrite String.eqb_refl, IH. reflexivity.
Qed.

Lemma filter_other_layer_flat lay' files xs :
  "Crosses"%string <> lay' ->
  filter (fun e => String.eqb (e_layer e) lay')
    (flat_map (fun p => map (set_layer "Crosses") (stored_crosses files p)) xs) = [].
Proof.
  intros Hne. induction xs as [|p xs IH]; simpl; [reflexivity|].
  rewrite filter_app, IH, filter_other_layer by exact Hne. reflexivity.
Qed.

(** A successful [combine_dxf_files] on [[a; b]] saves one drawing at
    [output_file] whose ["Boundaries_start"] layer holds (relabelled) the
    [LWPOLYLINE] entities of layer ["Boundaries"] of the start file [a],
    whose ["Boundaries_end"] layer holds those of the end file [b], and
    whose ["Margin"] layer holds the [LWPOLYLINE] margin entities of the
    start file only; entities of other types on these layers are not
    copied. *)
Theorem combine_dxf_files_boundary_layers a b out all st st' :
  combine_dxf_files [a; b] out all st = (Ok tt, st') ->
  exists d da db,
    w_files st a = Some da /\ w_files st b = Some db /\
    w_saved st' = w_saved st ++ [(out, d)] /\
    layer_entities "Boundaries_start" d =
      map (set_layer "Boundaries_start") (query da "LWPOLYLINE" "Boundaries") /\
    layer_entities "Margin" d = map (set_layer "Margin") (query da "LWPOLYLINE" "Margin") /\
    layer_entities "Boundaries_end" d =
      map (set_layer "Boundaries_end") (query db "LWPOLYLINE" "Boundaries").
Proof.
  intros H.
  destruct (w_files st a) as [da|] eqn:Ha.
  2:{ unfold_combine H. rewrite Ha in H. discriminate. }
  destruct (w_files st b) as [db|] eqn:Hb.
  2:{ unfold_combine H. rewrite Ha, Hb in H. discriminate. }
  destruct (find_index a all) as [i|] eqn:Hi.
  2:{ unfold_combine H. rewrite Ha, Hb, Hi in H. discriminate. }
  assert (Hr : forall p, In p (skipn i all) -> w_files st p <> None).
  { intros p Hp Hnone. unfold_combine H. rewrite Ha, Hb, Hi in H.
    match type of H with context [mfold ?xs ?c copy_crosses ?w] =>
      destruct (mfold_copy_err xs c w p Hp Hnone) as [e He]; rewrite He in H end.
    discriminate. }
  rewrite (combine_ok a b out all st da db i Ha Hb Hi Hr) in H.
  inversion H; subst st'. clear H.
  do 3 eexists; split; [reflexivity|]. split; [reflexivity|]. split; [reflexivity|].
  unfold layer_entities; cbn [d_msp]. rewrite !filter_app.
  rewrite !filter_same_layer.
  rewrite !filter_other_layer by discriminate.
  rewrite !filter_other_layer_flat by discriminate.
  rewrite ?app_nil_r, ?app_nil_l. repeat split; reflexivity.
Qed.

(** ** The files written by [plot_concave_hull] *)

Lemma band_body_suffix tck_t splprep spline_at alphashape data sorted alpha sf save idx c thr
  st :
  exists new,
    w_saved (snd (band_body tck_t splprep spline_at alphashape data sorted alpha sf save
                    idx c thr st)) = w_saved st ++ new /\
    Forall (fun pd => p_suffix (fst pd) = ".dxf50"%string) new.
Proof.
  unfold band_body, bind at 1.
  destruct (hull_boundaries _ _ _ _ _ _ st) as [[bs|e] st1] eqn:Eh;
    apply hull_boundaries_world in Eh; subst st1.
  - destruct save.
    + unfold bind, py_index. destruct (py_get sorted idx) as [c'|].
      * unfold ret.
        match goal with
        | |- context [save_combined_to_dxf bs ?cr ?fn st] =>
            destruct (save_combined_crosses bs cr fn st) as [d [Hs _]]; rewrite Hs
        end.
        exists [(mkPath output_folder c' ".dxf50", d)]. split; [reflexivity|].
        repeat constructor.
      * exists []. rewrite app_nil_r. split; [reflexivity|constructor].
    + exists []. rewrite app_nil_r. split; [reflexivity|constructor].
  - exists []. rewrite app_nil_r. split; [reflexivity|constructor].
Qed.

Lemma band_loop_suffix body idx cats thr st :
  (forall i c t st0, exists new, w_saved (snd (body i c t st0)) = w_saved st0 ++ new /\
                                 Forall (fun pd => p_suffix (fst pd) = ".dxf50"%string) new) ->
  exists new, w_saved (snd (band_loop body idx cats thr st)) = w_saved st ++ new /\
              Forall (fun pd => p_suffix (fst pd) = ".dxf50"%string) new.
Proof.
  intros Hb. revert idx thr st; induction cats as [|c cats IH]; intros idx thr st;
    cbn [band_loop].
  - exists []. rewrite app_nil_r. split; [reflexivity|constructor].
  - unfold bind. destruct (Hb idx c thr st) as [new1 [E1 F1]].
    destruct (body idx c thr st) as [[u|e] st1]; cbn [snd] in E1 |- *.
    + destruct (IH (idx + 1) (Qred (thr - (2 # 100))) st1) as [new2 [E2 F2]].
      exists (new1 ++ new2). rewrite E2, E1, app_assoc.
      split; [reflexivity|]. apply Forall_app; split; assumption.
    + exists new1. split; assumption.
Qed.

(** Every file [plot_concave_hull] writes, whatever its arguments and
    whether or not it fails along the way, has the suffix [.dxf50], so the
    merge script's [Path("data/output").glob("*.dxf")] (or the glob of any
    directory) lists none of them. *)
Theorem plot_outputs_not_globbed tck_t splprep spline_at alphashape data sorted alpha
  start end_ sf save st :
  exists new,
    w_saved (snd (plot_concave_hull tck_t splprep spline_at alphashape data sorted alpha
                    start end_ sf save st)) = w_saved st ++ new /\
    forall dir, glob_dxf dir (map fst new) = [].
Proof.
  unfold plot_concave_hull.
  destruct (band_loop_suffix
              (band_body tck_t splprep spline_at alphashape data sorted alpha sf save)
              start (py_slice sorted start end_) (4 # 1) st
              (band_body_suffix tck_t splprep spline_at alphashape data sorted alpha sf save))
    as [new [E F]].
  exists new. split; [exact E|]. intros dir. clear E.
  induction F as [|[p d] new Hp F IH]; [reflexivity|].
  cbn [map fst] in *. unfold glob_dxf in *. cbn [filter]. rewrite Hp, IH.
  change (String.eqb ".dxf50" ".dxf") with false. rewrite andb_false_r. reflexivity.
Qed.

(** ** The sort key of the merge script *)

(** The key [int(p.stem.split()[0].rstrip('m'))] of a file named after a
    band label [f"{lb}m to {lb + bin_size}m"] is the lower bound [lb], for
    every integer [lb] (negative ones included) and every bin size, in
    whatever directory and with whatever suffix. *)
Theorem label_key_band_file dir b lb suffix st :
  label_key (mkPath dir (category_label b lb) suffix) st = (Ok lb, st).
Proof. apply stem_key_label. Qed.

Lemma insert_by_perm {A} (le : A -> A -> bool) x xs :
  Permutation (insert_by le x xs) (x :: xs).
Proof.
  induction xs as [|y ys IH]; cbn [insert_by]; [reflexivity|].
  destruct (le x y); [reflexivity|].
  transitivity (y :: x :: ys); [apply perm_skip, IH|apply perm_swap].
Qed.

Lemma sort_by_perm {A} (le : A -> A -> bool) xs : Permutation (sort_by le xs) xs.
Proof.
  induction xs as [|x xs IH]; [reflexivity|].
  unfold sort_by; cbn [fold_right]. fold (sort_by le xs).
  rewrite insert_by_perm. apply perm_skip, IH.
Qed.

Section SortBy.

Context {A : Type} (le : A -> A -> bool) (R : A -> A -> Prop).
Hypothesis le_R : forall a b, le a b = true -> R a b.
Hypothesis le_total : forall a b, le a b = false -> le b a = true.

Lemma insert_by_hdrel y x xs :
  HdRel R y xs -> R y x -> HdRel R y (insert_by le x xs).
Proof.
  intros H1 H2. destruct xs as [|z zs]; cbn [insert_by]; [constructor; exact H2|].
  destruct (le x z); constructor; [exact H2|inversion H1; assumption].
Qed.

Lemma insert_by_sorted x xs : Sorted R xs -> Sorted R (insert_by le x xs).
Proof.
  induction xs as [|y ys IH]; intros Hs; cbn [insert_by]; [repeat constructor|].
  destruct (le x y) eqn:E.
  - constructor; [exact Hs|constructor; apply le_R, E].
  - inversion Hs; subst. constructor; [apply IH; assumption|].
    apply insert_by_hdrel; [assumption|apply le_R, le_total, E].
Qed.

Lemma sort_by_sorted xs : Sorted R (sort_by le xs).
Proof.
  induction xs as [|x xs IH]; [constructor|].
  unfold sort_by; cbn [fold_right]. fold (sort_by le xs). apply insert_by_sorted, IH.
Qed.

End SortBy.

Lemma combine_map_l {A B} (f : A -> B) xs :
  combine (map f xs) xs = map (fun x => (f x, x)) xs.
Proof. induction xs as [|x xs IH]; cbn; [reflexivity|]. rewrite IH; reflexivity. Qed.

(** Sorting per-band files named [f"{lb}m to {lb + bin_size}m"] with the
    merge script's key orders them by the numeric lower bound [lb]
    (ascending, equal keys in their listing order), not by the text of the
    name; the result is a rearrangement of the listing. *)
Theorem sorted_band_files dir b suffix lbs st :
  sorted_by label_key (map (fun lb => mkPath dir (category_label b lb) suffix) lbs) st =
  (Ok (map (fun lb => mkPath dir (category_label b lb) suffix) (sort_by Z.leb lbs)), st) /\
  Permutation (sort_by Z.leb lbs) lbs /\ Sorted Z.le (sort_by Z.leb lbs).
Proof.
  set (mk := fun lb => mkPath dir (category_label b lb) suffix).
  assert (Hk : forall lb, label_key (mk lb) st = (Ok lb, st)) by (intros; apply stem_key_label).
  split; [|split].
  - unfold sorted_by, bind.
    rewrite (mmap_pure _ (fun p => match fst (label_key p st) with Ok z => z | Err _ => 0 end))
      by (intros p Hp; apply in_map_iff in Hp as [lb [<- _]]; rewrite Hk; reflexivity).
    rewrite map_map.
    rewrite (map_ext _ (fun x => x)) by (intros x; rewrite Hk; reflexivity).
    rewrite map_id, combine_map_l. unfold ret.
    rewrite (sort_by_map (fun a b => Z.leb (snd a) (snd b)) (fun x => (mk x, x))), map_map.
    reflexivity.
  - apply sort_by_perm.
  - apply sort_by_sorted.
    + intros x y H. apply Z.leb_le, H.
    + intros x y H. apply Z.leb_gt in H. apply Z.leb_le. lia.
Qed.

(** ** [categorize_and_sort] *)

Lemma bin_lower_general bin_size a :
  0 < bin_size ->
  (inject_Z (bin_lower bin_size a) <= a /\ a < inject_Z (bin_lower bin_size a + bin_size))%Q.
Proof.
  intros Hb. unfold bin_lower.
  pose proof (Qfloor_le (a / inject_Z bin_size)) as H1.
  pose proof (Qlt_floor (a / inject_Z bin_size)) as H2.
  set (m := Qfloor (a / inject_Z bin_size)) in *.
  set (q := (a / inject_Z bin_size)%Q) in *.
  assert (HB : (0 < inject_Z bin_size)%Q).
  { change 0%Q with (inject_Z 0). rewrite <- Zlt_Qlt. exact Hb. }
  assert (Ha : (a == q * inject_Z bin_size)%Q).
  { unfold q. field. intros E. rewrite E in HB. apply (Qlt_irrefl 0), HB. }
  rewrite inject_Z_plus, inject_Z_mult. rewrite inject_Z_plus in H2.
  change (inject_Z 1) with 1%Q in H2.
  rewrite Ha. split; nra.
Qed.

Lemma group_keys_in xs k : In k (group_keys xs) <-> In k xs.
Proof.
  split; [apply group_keys_incl|].
  induction xs as [|x xs IH]; [intros []|]. intros H; cbn [group_keys].
  destruct (String.eqb_spec x k) as [->|Hne]; [left; reflexivity|].
  destruct H as [->|H]; [contradiction|].
  right. apply filter_In. split; [apply IH, H|].
  rewrite (proj2 (String.eqb_neq x k) Hne). reflexivity.
Qed.

Lemma group_keys_nodup xs : NoDup (group_keys xs).
Proof.
  induction xs as [|x xs IH]; cbn [group_keys]; constructor.
  - intros H. apply filter_In in H as [_ H]. rewrite String.eqb_refl in H. discriminate.
  - apply NoDup_filter, IH.
Qed.

(** For a positive [bin_size], [categorize_and_sort] keeps every row, in
    order, with its longitude, latitude, altitude and name unchanged, and
    gives it the category [f"{lb}m to {lb + bin_size}m"] where [lb] is the
    multiple of [bin_size] with [lb <= altitude < lb + bin_size]; the merge
    script's key parses that label back to [lb]. *)
Theorem categorize_and_sort_rows data bin_size st :
  0 < bin_size ->
  List.length (fst (categorize_and_sort data bin_size)) = List.length data /\
  forall r r', In (r, r') (combine data (fst (categorize_and_sort data bin_size))) ->
    longitude r' = longitude r /\ latitude r' = latitude r /\ altitude r' = altitude r /\
    nom r' = nom r /\
    exists m,
      category r' = category_label bin_size (m * bin_size) /\
      stem_key (category r') st = (Ok (m * bin_size), st) /\
      (inject_Z (m * bin_size) <= altitude r < inject_Z (m * bin_size + bin_size))%Q.
Proof.
  intros Hb. cbn [categorize_and_sort fst]. split; [apply length_map|].
  intros r r' H. rewrite combine_map in H.
  apply in_map_iff in H as [r0 [E _]]. inversion E; subst r0 r'. clear E.
  cbn [longitude latitude altitude nom category categorize].
  split; [reflexivity|]. split; [reflexivity|]. split; [reflexivity|]. split; [reflexivity|].
  exists (Qfloor (altitude r / inject_Z bin_size)).
  split; [reflexivity|]. split; [apply stem_key_label|].
  apply (bin_lower_general bin_size (altitude r) Hb).
Qed.

(** The [sorted_categories] returned by [categorize_and_sort] lists each
    category present in the categorized rows exactly once, and nothing
    else, in ascending order of the mean altitude of its rows (for any bin
    size). *)
Theorem categorize_and_sort_categories data bin_size :
  NoDup (snd (categorize_and_sort data bin_size)) /\
  (forall k, In k (snd (categorize_and_sort data bin_size)) <->
             In k (map category (fst (categorize_and_sort data bin_size)))) /\
  Sorted (fun k1 k2 => group_mean (fst (categorize_and_sort data bin_size)) k1 <=
                       group_mean (fst (categorize_and_sort data bin_size)) k2)%Q
    (snd (categorize_and_sort data bin_size)).
Proof.
  cbn [categorize_and_sort fst snd].
  set (data' := map (categorize bin_size) data).
  unfold sort_values_by_mean.
  rewrite (sort_pairs Qle_bool (group_mean data')).
  set (le := fun a b => Qle_bool (group_mean data' a) (group_mean data' b)).
  set (ks := group_keys (map category data')).
  pose proof (sort_by_perm le ks) as Hp.
  split; [|split].
  - apply (Permutation_NoDup (Permutation_sym Hp)), group_keys_nodup.
  - intros k. rewrite <- (group_keys_in (map category data') k). fold ks.
    split; [apply Permutation_in, Hp|apply Permutation_in, Permutation_sym, Hp].
  - apply sort_by_sorted.
    + intros a b H. apply Qle_bool_iff, H.
    + intros a b H. unfold le in *. apply Qle_bool_iff. apply Qlt_le_weak, Qnot_le_lt.
      intros H'. apply Qle_bool_iff in H'. congruence.
Qed.

(** ** [rescale_data] *)

Lemma Qle_bool_false a b : Qle_bool a b = false -> (b <= a)%Q.
Proof.
  intros E. apply Qlt_le_weak, Qnot_le_lt. intros H. apply Qle_bool_iff in H. congruence.
Qed.

Lemma fold_qmin_spec xs m :
  (fold_left qmin xs m <= m)%Q /\ (forall x, In x xs -> fold_left qmin xs m <= x)%Q /\
  (fold_left qmin xs m = m \/ In (fold_left qmin xs m) xs).
Proof.
  revert m; induction xs as [|x xs IH]; intros m; cbn [fold_left].
  - split; [apply Qle_refl|]. split; [intros _ []|left; reflexivity].
  - destruct (IH (qmin m x)) as [H1 [H2 H3]].
    assert (Hm : (qmin m x <= m /\ qmin m x <= x)%Q).
    { unfold qmin. destruct (Qle_bool m x) eqn:E.
      - apply Qle_bool_iff in E. split; [apply Qle_refl|exact E].
      - split; [apply Qle_bool_false, E|apply Qle_refl]. }
    split; [eapply Qle_trans; [exact H1|apply Hm]|]. split.
    + intros y [<-|Hy]; [eapply Qle_trans; [exact H1|apply Hm]|apply H2, Hy].
    + destruct H3 as [H3|H3]; [|right; right; exact H3]. rewrite H3.
      unfold qmin; destruct (Qle_bool m x); [left; reflexivity|right; left; reflexivity].
Qed.

Lemma fold_qmax_spec xs m :
  (m <= fold_left qmax xs m)%Q /\ (forall x, In x xs -> x <= fold_left qmax xs m)%Q /\
  (fold_left qmax xs m = m \/ In (fold_left qmax xs m) xs).
Proof.
  revert m; induction xs as [|x xs IH]; intros m; cbn [fold_left].
  - split; [apply Qle_refl|]. split; [intros _ []|left; reflexivity].
  - destruct (IH (qmax m x)) as [H1 [H2 H3]].
    assert (Hm : (m <= qmax m x /\ x <= qmax m x)%Q).
    { unfold qmax. destruct (Qle_bool m x) eqn:E.
      - apply Qle_bool_iff in E. split; [exact E|apply Qle_refl].
      - split; [apply Qle_refl|apply Qle_bool_false, E]. }
    split; [eapply Qle_trans; [apply Hm|exact H1]|]. split.
    + intros y [<-|Hy]; [eapply Qle_trans; [apply Hm|exact H1]|apply H2, Hy].
    + destruct H3 as [H3|H3]; [|right; right; exact H3]. rewrite H3.
      unfold qmax; destruct (Qle_bool m x); [right; left; reflexivity|left; reflexivity].
Qed.

Lemma col_min_spec xs :
  xs <> [] -> In (col_min xs) xs /\ forall x, In x xs -> (col_min xs <= x)%Q.
Proof.
  destruct xs as [|m xs]; [congruence|]; intros _. cbn [col_min].
  destruct (fold_qmin_spec xs m) as [H1 [H2 H3]]. split.
  - destruct H3 as [H3|H3]; [rewrite H3; left; reflexivity|right; exact H3].
  - intros y [<-|Hy]; [exact H1|apply H2, Hy].
Qed.

Lemma col_max_spec xs :
  xs <> [] -> In (col_max xs) xs /\ forall x, In x xs -> (x <= col_max xs)%Q.
Proof.
  destruct xs as [|m xs]; [congruence|]; intros _. cbn [col_max].
  destruct (fold_qmax_spec xs m) as [H1 [H2 H3]]. split.
  - destruct H3 as [H3|H3]; [rewrite H3; left; reflexivity|right; exact H3].
  - intros y [<-|Hy]; [exact H1|apply H2, Hy].
Qed.

Lemma affine_bounds lo hi v a b :
  (lo < hi -> lo <= v <= hi -> a <= b -> a <= (v - lo) / (hi - lo) * (b - a) + a <= b)%Q.
Proof.
  intros Hlh [Hv1 Hv2] Hab.
  assert (Hp : (0 < hi - lo)%Q) by lra.
  assert (T0 : (0 <= (v - lo) / (hi - lo))%Q).
  { apply Qle_shift_div_l; [exact Hp|]. lra. }
  assert (T1 : ((v - lo) / (hi - lo) <= 1)%Q).
  { apply Qle_shift_div_r; [exact Hp|]. lra. }
  set (t := ((v - lo) / (hi - lo))%Q) in *. split; nra.
Qed.

Lemma nonempty_of_lt xs : (col_min xs < col_max xs)%Q -> xs <> [].
Proof. intros H E. subst xs. apply (Qlt_irrefl 0), H. Qed.

(** For [xy_range = [a, b, ...]] with [a <= b], on a frame whose latitudes
    are not all equal and whose longitudes are not all equal,
    [rescale_data] maps the latitude and the longitude columns (not the
    altitude, contrary to its docstring) each affinely onto [[a, b]]: every
    new value lies in [[a, b]], the smallest one of each column becomes [a]
    and the largest [b]; the rows, their altitudes, categories and names are
    kept. *)
Theorem rescale_data_square data a b rest st :
  (col_min (map latitude data) < col_max (map latitude data))%Q ->
  (col_min (map longitude data) < col_max (map longitude data))%Q ->
  (a <= b)%Q ->
  exists data',
    rescale_data data (a :: b :: rest) st = (Ok data', st) /\
    List.length data' = List.length data /\
    map altitude data' = map altitude data /\ map category data' = map category data /\
    map nom data' = map nom data /\
    (forall r', In r' data' -> (a <= latitude r' <= b)%Q /\ (a <= longitude r' <= b)%Q) /\
    (exists r', In r' data' /\ (latitude r' == a)%Q) /\
    (exists r', In r' data' /\ (latitude r' == b)%Q) /\
    (exists r', In r' data' /\ (longitude r' == a)%Q) /\
    (exists r', In r' data' /\ (longitude r' == b)%Q).
Proof.
  intros Hlat Hlon Hab. unfold rescale_data, bind, py_index.
  rewrite (py_get_nonneg (a :: b :: rest) 1) by (cbn [List.length]; lia).
  rewrite (py_get_nonneg (a :: b :: rest) 0) by (cbn [List.length]; lia).
  cbn [Z.to_nat Pos.to_nat nth_error]. unfold ret.
  set (llo := col_min (map latitude data)) in *.
  set (lhi := col_max (map latitude data)) in *.
  set (olo := col_min (map longitude data)) in *.
  set (ohi := col_max (map longitude data)) in *.
  destruct (col_min_spec _ (nonempty_of_lt _ Hlat)) as [Hl1 Hl2].
  destruct (col_max_spec _ (nonempty_of_lt _ Hlat)) as [Hh1 Hh2].
  destruct (col_min_spec _ (nonempty_of_lt _ Hlon)) as [Ho1 Ho2].
  destruct (col_max_spec _ (nonempty_of_lt _ Hlon)) as [Hg1 Hg2].
  fold llo in Hl1, Hl2. fold lhi in Hh1, Hh2. fold olo in Ho1, Ho2. fold ohi in Hg1, Hg2.
  eexists; split; [reflexivity|].
  split; [apply length_map|].
  split; [rewrite map_map; reflexivity|].
  split; [rewrite map_map; reflexivity|].
  split; [rewrite map_map; reflexivity|].
  split; [|split; [|split; [|split]]].
  - intros r' Hr. apply in_map_iff in Hr as [r [<- Hr]]. cbn [latitude longitude].
    split; apply affine_bounds; try assumption.
    + split; [apply Hl2|apply Hh2]; apply in_map, Hr.
    + split; [apply Ho2|apply Hg2]; apply in_map, Hr.
  - apply in_map_iff in Hl1 as [r [Er Hr]]. eexists; split; [apply in_map, Hr|].
    cbn [latitude]. rewrite Er. field. intros E. lra.
  - apply in_map_iff in Hh1 as [r [Er Hr]]. eexists; split; [apply in_map, Hr|].
    cbn [latitude]. rewrite Er. field. intros E. lra.
  - apply in_map_iff in Ho1 as [r [Er Hr]]. eexists; split; [apply in_map, Hr|].
    cbn [longitude]. rewrite Er. field. intros E. lra.
  - apply in_map_iff in Hg1 as [r [Er Hr]]. eexists; split; [apply in_map, Hr|].
    cbn [longitude]. rewrite Er. field. intros E. lra.
Qed.

(** With an [xy_range] of fewer than two entries, [rescale_data] raises
    [IndexError] (at [xy_range[1]]) before changing anything. *)
Theorem rescale_data_short_range data xy_range st :
  (List.length xy_range < 2)%nat -> rescale_data data xy_range st = (Err IndexError, st).
Proof.
  intros H. unfold rescale_data, bind, py_index. rewrite py_get_beyond by lia. reflexivity.
Qed.

(** ** [process_coordinates]: the extracted rows *)

Lemma extract_xyz_cases g st :
  exists r, extract_xyz (extract_coordinates g) st = (r, st) /\
            forall e, r = Err e -> e = ValueError.
Proof.
  destruct g as [x y z|[|c cs]|]; cbn [extract_coordinates extract_xyz].
  - eexists; split; [reflexivity|discriminate].
  - eexists; split; [reflexivity|discriminate].
  - destruct c as [|x [|y [|z [|w c]]]];
      (eexists; split; [reflexivity|]); intros e E; inversion E; try reflexivity.
  - eexists; split; [reflexivity|discriminate].
Qed.

Lemma mmap_xyz_bad geoms c cs st :
  In (GLineString (c :: cs)) geoms -> List.length c <> 3%nat ->
  mmap (fun g => extract_xyz (extract_coordinates g)) geoms st = (Err ValueError, st).
Proof.
  intros Hin Hc. induction geoms as [|g gs IH]; [destruct Hin|].
  cbn [mmap]. unfold bind at 1.
  destruct Hin as [->|Hin].
  - cbn [extract_coordinates extract_xyz].
    destruct c as [|x [|y [|z [|w c]]]]; cbn [List.length] in Hc; try reflexivity; lia.
  - destruct (extract_xyz_cases g st) as [r [E He]]. rewrite E.
    destruct r as [o|e].
    + unfold bind. rewrite (IH Hin). reflexivity.
    + rewrite (He e eq_refl). reflexivity.
Qed.

Lemma combine_map_r {A B C} (f : B -> C) (l : list A) l' :
  combine l (map f l') = map (fun p => (fst p, f (snd p))) (combine l l').
Proof.
  revert l'; induction l as [|a l IH]; intros [|b l']; cbn; try reflexivity.
  rewrite IH; reflexivity.
Qed.

(** The rows [process_coordinates] extracts before cleaning: an empty
    frame raises [ValueError] (the unpacking of the empty [zip]); a line
    string whose first coordinate tuple does not have three entries (a 2-D
    one) raises [ValueError]; otherwise there is one row per point and per
    non-empty line string, in order, with the position of its geometry as
    index label and the [(x, y, z)] of the point or of the first vertex of
    the line string as longitude, latitude and altitude (the other vertices
    are ignored), while empty line strings and other geometries are
    dropped. *)
Theorem coordinate_rows_extract geoms st :
  coordinate_rows [] st = (Err ValueError, st) /\
  (forall c cs, In (GLineString (c :: cs)) geoms -> List.length c <> 3%nat ->
     coordinate_rows geoms st = (Err ValueError, st)) /\
  (geoms <> [] ->
   (forall c cs, In (GLineString (c :: cs)) geoms -> List.length c = 3%nat) ->
   coordinate_rows geoms st =
   (Ok (flat_map (fun '(i, g) =>
          match g with
          | GPoint x y z => [mkGRow i x y z]
          | GLineString ([x; y; z] :: _) => [mkGRow i x y z]
          | _ => []
          end) (enumerate geoms)), st)).
Proof.
  split; [reflexivity|]. split.
  - intros c cs Hin Hc. unfold coordinate_rows, bind. rewrite (mmap_xyz_bad _ c cs st Hin Hc).
    reflexivity.
  - intros Hne Hok.
    set (h := fun g => match g with
                       | GPoint x y z => Some (x, y, z)
                       | GLineString ([x; y; z] :: _) => Some (x, y, z)
                       | _ => None
                       end).
    unfold coordinate_rows, bind.
    rewrite (mmap_pure _ h).
    2:{ intros g Hg. destruct g as [x y z|[|c cs]|]; try reflexivity.
        specialize (Hok c cs Hg).
        destruct c as [|x [|y [|z [|w c]]]]; cbn [List.length] in Hok; try discriminate.
        reflexivity. }
    destruct geoms as [|g0 gs]; [congruence|].
    change (map h (g0 :: gs)) with (h g0 :: map h gs). cbv iota.
    change (h g0 :: map h gs) with (map h (g0 :: gs)).
    unfold ret, enumerate. rewrite length_map, combine_map_r.
    f_equal. f_equal.
    rewrite flat_map_concat_map, map_map, <- flat_map_concat_map.
    apply flat_map_ext. intros [i g]. cbn [fst snd].
    destruct g as [x y z|[|c cs]|]; try reflexivity.
    destruct c as [|x [|y [|z [|w c]]]]; reflexivity.
Qed.

(** ** [clean_and_interpolate_data] *)

Lemma drop_duplicates_from_incl seen xs y :
  In y (drop_duplicates_from seen xs) -> In y xs.
Proof.
  revert seen; induction xs as [|x xs IH]; intros seen H; cbn [drop_duplicates_from] in H;
    [exact H|].
  destruct (existsb (same_values x) seen).
  - right. eapply IH; exact H.
  - destruct H as [H|H]; [left; exact H|right; eapply IH; exact H].
Qed.

Lemma invalid_rows_in data s :
  In s (drop_duplicates (filter (fun r => Qle_bool (g_alt r) 0) data ++ conflicting_rows data)) ->
  In s data /\ (Qle_bool (g_alt s) 0 = true \/ In s (conflicting_rows data)).
Proof.
  intros H. apply drop_duplicates_from_incl, in_app_or in H as [H|H].
  - apply filter_In in H as [H1 H2]. auto.
  - split; [|auto]. unfold conflicting_rows in H. apply filter_In in H as [H _]. exact H.
Qed.

Lemma clean_ok_form griddata data st out st' :
  clean_and_interpolate_data griddata data st = (Ok out, st') ->
  exists pts vals qs os st1,
    griddata pts vals qs st = (Ok os, st1) /\
    out = map (fun r => mkGRow (g_index r) (g_lon r / 10000) (g_lat r / 100000) (g_alt r))
            (update_rows data
               (combine (drop_duplicates (filter (fun r => Qle_bool (g_alt r) 0) data ++
                                          conflicting_rows data)) os)).
Proof.
  intros H. unfold clean_and_interpolate_data, bind in H.
  match type of H with
  | match griddata ?p ?v ?q st with _ => _ end = _ =>
      destruct (griddata p v q st) as [[os|e] st1] eqn:Eg; [|discriminate];
      exists p, v, q, os, st1
  end.
  split; [exact Eg|].
  destruct (Nat.eqb _ _); [|discriminate]. unfold ret in H. inversion H. reflexivity.
Qed.

Lemma nodup_index_eq data r s :
  NoDup (map g_index data) -> In r data -> In s data -> g_index s = g_index r -> s = r.
Proof.
  induction data as [|x xs IH]; intros Hnd Hr Hs E; [destruct Hr|].
  cbn [map] in Hnd. inversion Hnd as [|? ? Hx Hnd']; subst.
  destruct Hr as [<-|Hr], Hs as [<-|Hs]; try reflexivity.
  - exfalso. apply Hx. rewrite <- E. apply in_map, Hs.
  - exfalso. apply Hx. rewrite E. apply in_map, Hr.
  - apply IH; assumption.
Qed.

Lemma nunique_const xs q : (forall x, In x xs -> x == q)%Q -> (nunique xs <= 1)%nat.
Proof.
  induction xs as [|x xs IH]; intros H; cbn [nunique]; [lia|].
  destruct (existsb (Qeq_bool x) xs) eqn:E; [apply IH; intros y Hy; apply H; right; exact Hy|].
  destruct xs as [|y ys]; [cbn; lia|].
  exfalso. cbn [existsb] in E. apply orb_false_iff in E as [E _].
  assert (Hxy : (x == y)%Q).
  { rewrite (H x (or_introl eq_refl)), (H y (or_intror (or_introl eq_refl))). reflexivity. }
  apply Qeq_bool_iff in Hxy. congruence.
Qed.

(** On a frame with distinct index labels, a successful
    [clean_and_interpolate_data] keeps the rows, in order and with their
    index labels, divides every longitude by 10000 and every latitude by
    100000 (two different factors), and otherwise leaves the coordinates
    as they were. *)
Theorem clean_scales_coordinates griddata data st out st' :
  NoDup (map g_index data) ->
  clean_and_interpolate_data griddata data st = (Ok out, st') ->
  map g_index out = map g_index data /\
  forall r r', In (r, r') (combine data out) ->
    g_lon r' = (g_lon r / 10000)%Q /\ g_lat r' = (g_lat r / 100000)%Q.
Proof.
  intros Hnd H. apply clean_ok_form in H as [pts [vals [qs [os [st1 [_ ->]]]]]].
  unfold update_rows. rewrite !map_map. split.
  - apply map_ext. intros r.
    destruct (find _ _) as [[s [v|]]|]; reflexivity.
  - intros r r' Hin. rewrite combine_map in Hin.
    apply in_map_iff in Hin as [r0 [E Hr]]. inversion E; subst r0 r'. clear E.
    destruct (find _ _) as [[s o]|] eqn:Ef; [|split; reflexivity].
    apply find_some in Ef as [Hso Hidx]. apply Nat.eqb_eq in Hidx.
    apply in_combine_l, invalid_rows_in in Hso as [Hs _].
    rewrite (nodup_index_eq data r s Hnd Hr Hs Hidx).
    destruct o; split; reflexivity.
Qed.

(** On a frame with distinct index labels, a successful
    [clean_and_interpolate_data] keeps the altitude of every row whose
    altitude is positive and whose location (latitude, longitude) carries
    no other altitude: such a row is never replaced by an interpolated
    value. *)
Theorem clean_keeps_valid_altitude griddata data st out st' r :
  NoDup (map g_index data) -> In r data -> (0 < g_alt r)%Q ->
  (forall s, In s data -> same_location r s = true -> g_alt s == g_alt r)%Q ->
  clean_and_interpolate_data griddata data st = (Ok out, st') ->
  exists r', In (r, r') (combine data out) /\ g_alt r' = g_alt r.
Proof.
  intros Hnd Hr Hpos Hloc H. apply clean_ok_form in H as [pts [vals [qs [os [st1 [_ ->]]]]]].
  unfold update_rows. rewrite map_map, combine_map.
  eexists; split; [apply in_map_iff; exists r; split; [reflexivity|exact Hr]|].
  cbn [g_alt].
  destruct (find _ _) as [[s o]|] eqn:Ef; [|reflexivity].
  exfalso. apply find_some in Ef as [Hso Hidx]. apply Nat.eqb_eq in Hidx.
  apply in_combine_l, invalid_rows_in in Hso as [Hs Hinv].
  rewrite (nodup_index_eq data r s Hnd Hr Hs Hidx) in Hinv.
  destruct Hinv as [Hle|Hc].
  - apply Qle_bool_iff in Hle. lra.
  - unfold conflicting_rows in Hc. apply filter_In in Hc as [_ Hc].
    apply Nat.ltb_lt in Hc.
    assert (Hn : (nunique (map g_alt (filter (same_location r) data)) <= 1)%nat).
    { apply (nunique_const _ (g_alt r)). intros x Hx.
      apply in_map_iff in Hx as [s' [<- Hs']]. apply filter_In in Hs' as [Hs' Hl].
      apply Hloc; assumption. }
    lia.
Qed.

Lemma clean_ok_call griddata data st out st' :
  clean_and_interpolate_data griddata data st = (Ok out, st') ->
  exists os st1,
    griddata (map lat_lon (valid_rows data)) (map g_alt (valid_rows data))
      (map lat_lon (invalid_rows data)) st = (Ok os, st1) /\
    out = map (fun r => mkGRow (g_index r) (g_lon r / 10000) (g_lat r / 100000) (g_alt r))
            (update_rows data (combine (invalid_rows data) os)).
Proof.
  intros H. unfold clean_and_interpolate_data, bind in H.
  change (map (fun r => (g_lat r, g_lon r))) with (map lat_lon) in H.
  fold (invalid_rows data) in H. fold (valid_rows data) in H.
  destruct (griddata _ _ _ st) as [[os|e] st1] eqn:Eg; [|discriminate].
  exists os, st1. split; [reflexivity|].
  destruct (Nat.eqb _ _); [|discriminate]. unfold ret in H. inversion H. reflexivity.
Qed.

(** When the one [griddata] call of [clean_and_interpolate_data] (the
    valid rows' positions and altitudes, queried at the invalid rows'
    positions) returns NaN at every query point, [data.update] skips all of
    them and every altitude is left as it was, the non-positive and the
    conflicting ones included. *)
Theorem clean_nan_interpolation_keeps_altitudes griddata data st out st' :
  (forall os st1,
     griddata (map lat_lon (valid_rows data)) (map g_alt (valid_rows data))
       (map lat_lon (invalid_rows data)) st = (Ok os, st1) ->
     Forall (fun o => o = None) os) ->
  clean_and_interpolate_data griddata data st = (Ok out, st') ->
  map g_alt out = map g_alt data.
Proof.
  intros Hnan H. apply clean_ok_call in H as [os [st1 [Eg ->]]].
  apply Hnan in Eg. rewrite Forall_forall in Eg.
  unfold update_rows. rewrite !map_map. apply map_ext. intros r.
  destruct (find _ _) as [[s o]|] eqn:Ef; [|reflexivity].
  apply find_some in Ef as [Hso _]. apply in_combine_r, Eg in Hso. subst o. reflexivity.
Qed.

(** ** [process_coordinates]: errors before the interpolation *)

(** [process_coordinates] raises [ValueError] on an empty GeoDataFrame and on
    a line string whose first vertex is not three-dimensional, whatever
    [griddata] does: the error comes from the unpacking of the zipped
    coordinates, before the cleaning starts. *)
Theorem process_coordinates_errors griddata geoms st :
  (geoms = [] \/ exists c cs, In (GLineString (c :: cs)) geoms /\ List.length c <> 3%nat) ->
  process_coordinates griddata geoms st = (Err ValueError, st).
Proof.
  intros [->|[c [cs [Hin Hc]]]]; [reflexivity|].
  unfold process_coordinates, coordinate_rows, bind.
  rewrite (mmap_xyz_bad _ c cs st Hin Hc). reflexivity.
Qed.

(** ** [load_shapefiles]: the selected files *)

Lemma str_contains_app sub a b :
  str_contains sub b = true -> str_contains sub (a ++ b) = true.
Proof.
  intros H. induction a as [|ch a IH]; [exact H|].
  cbn [append str_contains]. rewrite IH. apply orb_true_r.
Qed.

Lemma str_endswith_app suf a b :
  str_endswith suf b = true -> str_endswith suf (a ++ b) = true.
Proof.
  intros H. induction a as [|ch a IH]; [exact H|].
  cbn [append str_endswith]. rewrite IH. apply orb_true_r.
Qed.

Lemma path_join_keeps (P : string -> bool) a b :
  (forall x y, P y = true -> P (x ++ y)%string = true) ->
  P b = true -> P (path_join a b) = true.
Proof.
  intros HP Hb. unfold path_join.
  destruct (String.prefix "/" b); [exact Hb|].
  destruct (String.eqb a "" || str_endswith "/" a); apply HP; [exact Hb|].
  apply (HP "/"%string). exact Hb.
Qed.

(** [load_shapefiles] returns the joined paths of exactly the listed names
    that contain [_PUN_ACO] and end in [.shp], in the listing's order; the
    returned paths themselves contain [_PUN_ACO] and end in [.shp]. *)
Theorem load_shapefiles_selection folder listing :
  load_shapefiles folder listing =
  flat_map (fun f => if str_contains "_PUN_ACO" f && str_endswith ".shp" f
                     then [path_join folder f] else []) listing /\
  (forall p, In p (load_shapefiles folder listing) <->
     exists f, In f listing /\ str_contains "_PUN_ACO" f = true /\
               str_endswith ".shp" f = true /\ p = path_join folder f) /\
  Forall (fun p => str_contains "_PUN_ACO" p = true /\ str_endswith ".shp" p = true)
    (load_shapefiles folder listing).
Proof.
  assert (Hflat : load_shapefiles folder listing =
    flat_map (fun f => if str_contains "_PUN_ACO" f && str_endswith ".shp" f
                       then [path_join folder f] else []) listing).
  { unfold load_shapefiles. induction listing as [|f fs IH]; [reflexivity|].
    cbn [filter flat_map].
    destruct (str_contains "_PUN_ACO" f && str_endswith ".shp" f); cbn [map app];
      rewrite IH; reflexivity. }
  assert (Hin : forall p, In p (load_shapefiles folder listing) <->
     exists f, In f listing /\ str_contains "_PUN_ACO" f = true /\
               str_endswith ".shp" f = true /\ p = path_join folder f).
  { intros p. unfold load_shapefiles. rewrite in_map_iff. split.
    - intros [f [<- Hf]]. apply filter_In in Hf as [Hf Hb].
      apply andb_prop in Hb as [H1 H2]. exists f. repeat split; assumption.
    - intros [f [Hf [H1 [H2 ->]]]]. exists f. split; [reflexivity|].
      apply filter_In. split; [exact Hf|]. rewrite H1, H2. reflexivity. }
  split; [exact Hflat|]. split; [exact Hin|].
  apply Forall_forall. intros p Hp. apply Hin in Hp as [f [_ [H1 [H2 ->]]]].
  split.
  - apply path_join_keeps; [|exact H1]. intros x y. apply str_contains_app.
  - apply path_join_keeps; [|exact H2]. intros x y. apply str_endswith_app.
Qed.

(** ** Witnesses of the further properties *)

(** [create_circle] with four segments gives five points; with zero
    segments it raises [IndexError]. *)
Lemma create_circle_ring_witness :
  (1 <= 4 /\
   exists pts,
     create_circle 3 (fun q => q) (fun q => q) 0 0 1 4 empty_world = (Ok pts, empty_world) /\
     List.length pts = 5%nat /\ nth_error pts 4 = nth_error pts 0) /\
  (0 <= 0 /\
   create_circle 3 (fun q => q) (fun q => q) 0 0 1 0 empty_world = (Err IndexError, empty_world)).
Proof.
  split; split; [lia| |lia|].
  - destruct (proj1 (create_circle_ring 3 (fun q => q) (fun q => q) 0 0 1 4 empty_world)
                ltac:(lia)) as [pts [H1 [H2 [H3 _]]]].
    exists pts. split; [exact H1|]. split; [exact H2|exact H3].
  - apply (proj2 (create_circle_ring 3 (fun q => q) (fun q => q) 0 0 1 0 empty_world)). lia.
Defined.

(** Merging the files of bands 100 and 200 of the seven per-band files. *)
Lemma combine_dxf_files_boundary_layers_witness :
  exists st',
    combine_dxf_files [band_file 100; band_file 200] (mkPath "data/dxf100" "100m to 200m" ".dxf")
      seven_files (store_without []) = (Ok tt, st') /\
    exists d da db,
      w_files (store_without []) (band_file 100) = Some da /\
      w_files (store_without []) (band_file 200) = Some db /\
      w_saved st' = w_saved (store_without []) ++
                    [(mkPath "data/dxf100" "100m to 200m" ".dxf", d)] /\
      layer_entities "Boundaries_start" d =
        map (set_layer "Boundaries_start") (query da "LWPOLYLINE" "Boundaries") /\
      layer_entities "Margin" d = map (set_layer "Margin") (query da "LWPOLYLINE" "Margin") /\
      layer_entities "Boundaries_end" d =
        map (set_layer "Boundaries_end") (query db "LWPOLYLINE" "Boundaries").
Proof.
  eexists; split; [vm_compute; reflexivity|].
  apply (combine_dxf_files_boundary_layers (band_file 100) (band_file 200)
           (mkPath "data/dxf100" "100m to 200m" ".dxf") seven_files (store_without [])).
  vm_compute. reflexivity.
Defined.

(** The row at altitude -7 of [six_heights] lands in the band
    [-50m to 0m]. *)
Lemma categorize_and_sort_rows_witness :
  0 < 50 /\
  In (mkRow 0 0 (-7) "" None, mkRow 0 0 (-7) "-50m to 0m" None)
     (combine six_heights (fst (categorize_and_sort six_heights 50))) /\
  exists m,
    category_label 50 (m * 50) = "-50m to 0m"%string /\
    (inject_Z (m * 50) <= -7 < inject_Z (m * 50 + 50))%Q.
Proof.
  assert (Hin : In (mkRow 0 0 (-7) "" None, mkRow 0 0 (-7) "-50m to 0m" None)
                   (combine six_heights (fst (categorize_and_sort six_heights 50)))).
  { vm_compute. right; right; right; left. reflexivity. }
  split; [lia|]. split; [exact Hin|].
  destruct (proj2 (categorize_and_sort_rows six_heights 50 empty_world ltac:(lia)) _ _ Hin)
    as [_ [_ [_ [_ [m [Hc [_ Hb]]]]]]].
  exists m. split; [symmetry; exact Hc|exact Hb].
Defined.

(** [rescale_data] of the rows of [two_bands] onto [[0, 333]]. *)
Lemma rescale_data_square_witness :
  (col_min (map latitude (rows two_bands)) < col_max (map latitude (rows two_bands)))%Q /\
  (col_min (map longitude (rows two_bands)) < col_max (map longitude (rows two_bands)))%Q /\
  (0 <= 333)%Q /\
  exists data',
    rescale_data (rows two_bands) [0; 333]%Q empty_world = (Ok data', empty_world) /\
    (forall r', In r' data' -> (0 <= latitude r' <= 333)%Q /\ (0 <= longitude r' <= 333)%Q) /\
    (exists r', In r' data' /\ (latitude r' == 333)%Q).
Proof.
  assert (H1 : (col_min (map latitude (rows two_bands)) <
                col_max (map latitude (rows two_bands)))%Q) by (vm_compute; reflexivity).
  assert (H2 : (col_min (map longitude (rows two_bands)) <
                col_max (map longitude (rows two_bands)))%Q) by (vm_compute; reflexivity).
  assert (H3 : (0 <= 333)%Q) by (vm_compute; discriminate).
  split; [exact H1|]. split; [exact H2|]. split; [exact H3|].
  destruct (rescale_data_square (rows two_bands) 0 333 [] empty_world H1 H2 H3)
    as [d' [E [_ [_ [_ [_ [B [_ [Hb _]]]]]]]]].
  exists d'. split; [exact E|]. split; [exact B|exact Hb].
Defined.

(** [rescale_data] with the one-entry range [[333]]. *)
Lemma rescale_data_short_range_witness :
  (List.length [333%Q] < 2)%nat /\
  rescale_data (rows two_bands) [333%Q] empty_world = (Err IndexError, empty_world).
Proof.
  split; [cbn; lia|]. apply rescale_data_short_range. cbn; lia.
Defined.

(** The rows of [sample_geoms]: the point (index 0) and the first vertex of
    the line string (index 1); [flat_geoms] raises [ValueError]. *)
Lemma coordinate_rows_extract_witness :
  sample_geoms <> [] /\
  (forall c cs, In (GLineString (c :: cs)) sample_geoms -> List.length c = 3%nat) /\
  coordinate_rows sample_geoms empty_world =
  (Ok [mkGRow 0 1 2 3; mkGRow 1 4 5 6]%Q, empty_world) /\
  In (GLineString [[4; 5]]%Q) flat_geoms /\ List.length [4; 5]%Q <> 3%nat /\
  coordinate_rows flat_geoms empty_world = (Err ValueError, empty_world).
Proof.
  assert (Hne : sample_geoms <> []) by discriminate.
  assert (H3 : forall c cs, In (GLineString (c :: cs)) sample_geoms -> List.length c = 3%nat).
  { intros c cs H. cbn in H.
    destruct H as [H|[H|[H|[H|[]]]]]; inversion H; reflexivity. }
  split; [exact Hne|]. split; [exact H3|]. split.
  - rewrite (proj2 (proj2 (coordinate_rows_extract sample_geoms empty_world)) Hne H3).
    reflexivity.
  - split; [right; left; reflexivity|]. split; [cbn; lia|].
    apply (proj1 (proj2 (coordinate_rows_extract flat_geoms empty_world)) [4; 5]%Q []);
      [right; left; reflexivity|cbn; lia].
Defined.

Lemma sample_rows_nodup : NoDup (map g_index sample_rows).
Proof. cbn. repeat constructor; cbn; intuition discriminate. Qed.

(** Cleaning [sample_rows] with interpolated altitudes 5. *)
Lemma clean_scales_coordinates_witness :
  exists out st',
    clean_and_interpolate_data five_griddata sample_rows empty_world = (Ok out, st') /\
    NoDup (map g_index sample_rows) /\
    map g_index out = map g_index sample_rows /\
    forall r r', In (r, r') (combine sample_rows out) ->
      g_lon r' = (g_lon r / 10000)%Q /\ g_lat r' = (g_lat r / 100000)%Q.
Proof.
  do 2 eexists; split; [vm_compute; reflexivity|]. split; [exact sample_rows_nodup|].
  eapply (clean_scales_coordinates five_griddata sample_rows empty_world);
    [exact sample_rows_nodup|vm_compute; reflexivity].
Defined.

(** The first row of [sample_rows] keeps its altitude 10, while the
    interpolation writes 5 into the invalid rows. *)
Lemma clean_keeps_valid_altitude_witness :
  exists out st',
    clean_and_interpolate_data five_griddata sample_rows empty_world = (Ok out, st') /\
    map g_alt out = [10; 5; 5; 5; 12]%Q /\
    exists r', In (mkGRow 0 1 2 10%Q, r') (combine sample_rows out) /\ g_alt r' = 10%Q.
Proof.
  do 2 eexists; split; [vm_compute; reflexivity|]. split; [vm_compute; reflexivity|].
  eapply (clean_keeps_valid_altitude five_griddata sample_rows empty_world _ _ (mkGRow 0 1 2 10%Q)).
  - exact sample_rows_nodup.
  - left; reflexivity.
  - vm_compute; reflexivity.
  - intros s Hs Hl. cbn in Hs.
    destruct Hs as [<-|[<-|[<-|[<-|[<-|[]]]]]]; vm_compute in Hl; try discriminate.
    apply Qeq_refl.
  - vm_compute; reflexivity.
Defined.

(** With NaN interpolation, the altitude -2 and the conflicting 7 and 9 of
    [sample_rows] survive. *)
Lemma clean_nan_interpolation_keeps_altitudes_witness :
  exists out st',
    clean_and_interpolate_data nan_griddata sample_rows empty_world = (Ok out, st') /\
    map g_alt out = map g_alt sample_rows /\
    map g_alt sample_rows = [10; -2; 7; 9; 12]%Q.
Proof.
  do 2 eexists; split; [vm_compute; reflexivity|]. split; [|reflexivity].
  eapply (clean_nan_interpolation_keeps_altitudes nan_griddata sample_rows empty_world).
  - intros os st1 H. unfold nan_griddata, ret in H. inversion H; subst.
    repeat constructor.
  - vm_compute; reflexivity.
Defined.

(** An empty GeoDataFrame, and [flat_geoms], fail before [griddata]. *)
Lemma process_coordinates_errors_witness :
  process_coordinates nan_griddata [] empty_world = (Err ValueError, empty_world) /\
  process_coordinates five_griddata flat_geoms empty_world = (Err ValueError, empty_world).
Proof.
  split.
  - apply process_coordinates_errors. left; reflexivity.
  - apply process_coordinates_errors. right. exists [4; 5]%Q, [].
    split; [right; left; reflexivity|cbn; lia].
Defined.

(** One two-vertex boundary and one cross: three entities are drawn. *)
Lemma save_combined_to_dxf_drawing_witness :
  Forall (fun '(sx, sy) => combine sx sy <> []) [([0; 1], [0; 1])]%Q /\
  exists d,
    save_combined_to_dxf [([0; 1], [0; 1])]%Q [(1, 1)]%Q
      (mkPath output_folder "0m to 50m" ".dxf50") empty_world =
    saveas (mkPath output_folder "0m to 50m" ".dxf50") d empty_world /\
    List.length (d_msp d) = 3%nat.
Proof.
  assert (Hf : Forall (fun '(sx, sy) => combine sx sy <> []) [([0; 1], [0; 1])]%Q).
  { constructor; [discriminate|constructor]. }
  split; [exact Hf|].
  destruct (save_combined_to_dxf_drawing [([0; 1], [0; 1])]%Q [(1, 1)]%Q
              (mkPath output_folder "0m to 50m" ".dxf50") empty_world Hf)
    as [d [E [_ [Hm _]]]].
  exists d. split; [exact E|]. rewrite Hm. reflexivity.
Defined.
